(** * Chonky [FileBrowser]: selection and sort state machine

    A shallow embedding of [src/FileBrowser.tsx].  The React component is
    modelled as explicit state passing: every handler is an [Action], a
    function from the component state to the next state together with the
    trace of the effects it performed on the outside world (host callbacks
    and [event.preventDefault()]).  [this.setState] calls are applied in
    program order, which is the order in which React flushes the update
    queue. *)

From stdpp Require Import gmap strings list fin_maps.
From Stdlib Require Import ZArith.

Open Scope Z_scope.

(** ** Data model ([typedef.ts]) *)

(** [Nullable<T>]: a value or [null]. *)
Abbreviation Nullable := option (only parsing).

(** A [FileData] object.  [addr] is the identity of the JavaScript object:
    the source compares files with [===] / [!==], which on objects is
    reference equality.  [selectable] and [openable] are optional
    booleans; [None] is a field left [undefined]. *)
Record FileData := mkFile {
  addr : positive;
  id : string;
  name : string;
  selectable : option bool;
  openable : option bool;
}.

(** [Selection]: a JavaScript object used as a map from file id to
    boolean.  An id is selected when it is mapped to [true]. *)
Abbreviation Selection := (gmap string bool) (only parsing).

Definition selected (s : Selection) (i : string) : Prop := s !! i = Some true.

(** The selection is a plain JavaScript object, and the finite map holds
    its own properties.  A plain object also inherits the members of
    [Object.prototype]: reading one of their names from a selection that
    has no own property of that name yields the inherited member (neither
    [undefined] nor [true]), and an assignment to ["__proto__"] stores
    nothing.  For a file whose id is one of these names the map and the
    object can therefore differ; the properties of the selection engine
    that depend on it are stated for the other ids. *)
Definition objectPrototypeKeys : list string :=
  ["constructor"; "__proto__"; "hasOwnProperty"; "isPrototypeOf";
   "propertyIsEnumerable"; "toLocaleString"; "toString"; "valueOf";
   "__defineGetter__"; "__defineSetter__"; "__lookupGetter__";
   "__lookupSetter__"]%string.

Definition isPrototypeKey (k : string) : bool :=
  existsb (String.eqb k) objectPrototypeKeys.

Inductive SelectionType := Single | Multiple | Range.

Inductive SelectionStatus := Ok | NeedsCleaning | NeedsResetting.

(** Modelled from the spec: the enum [SortOrder] of [typedef.ts]; the
    source names its members [Asc] and [Desc]. *)
Inductive SortOrder := Asc | Desc.

(** Modelled from the spec: the enum [SortProperty] of [typedef.ts]
    (name / size / date); the source names [SortProperty.Name]. *)
Inductive SortProperty := Name | Size | ModDate.

(** Modelled from the spec: the enum [FolderView] of [typedef.ts]; the
    source names [FolderView.Details] only, every other member is kept by
    its tag. *)
Inductive FolderView := Details | OtherView (tag : string).

(** Modelled from the spec: the enum [Option] of [typedef.ts], the named
    boolean toggles. *)
Inductive Option :=
  ShowHidden | FoldersFirst | ShowExtensions | ConfirmDeletions | DisableSelection.

#[global] Instance SelectionType_eq_dec : EqDecision SelectionType.
Proof. solve_decision. Defined.
#[global] Instance SelectionStatus_eq_dec : EqDecision SelectionStatus.
Proof. solve_decision. Defined.
#[global] Instance SortOrder_eq_dec : EqDecision SortOrder.
Proof. solve_decision. Defined.
#[global] Instance SortProperty_eq_dec : EqDecision SortProperty.
Proof. solve_decision. Defined.
#[global] Instance FolderView_eq_dec : EqDecision FolderView.
Proof. solve_decision. Defined.
#[global] Instance Option_eq_dec : EqDecision Option.
Proof. solve_decision. Defined.

Definition Option_code (o : Option) : positive :=
  match o with
  | ShowHidden => 1 | FoldersFirst => 2 | ShowExtensions => 3
  | ConfirmDeletions => 4 | DisableSelection => 5
  end%positive.

Definition Option_of_code (p : positive) : option Option :=
  match p with
  | 1 => Some ShowHidden | 2 => Some FoldersFirst | 3 => Some ShowExtensions
  | 4 => Some ConfirmDeletions | 5 => Some DisableSelection | _ => None
  end%positive.

#[global] Instance Option_countable : Countable Option.
Proof.
  refine (inj_countable Option_code Option_of_code _).
  intros []; reflexivity.
Defined.

(** [Options] and [Partial<Options>]: objects keyed by [Option]. *)
Abbreviation Options := (gmap Option bool) (only parsing).

(** [ClickEvent]: the two modifier keys read by the click handlers. *)
Record ClickEvent := mkClick { ctrlKey : bool; shiftKey : bool }.

(** ** Helpers of [Util.ts] and of the [shallow-equal] package *)

(** [isNil], [isNumber], [isString], [isObject] on values that are either
    present or [null] / [undefined]. *)
Definition isNil {A} (v : option A) : bool :=
  match v with None => true | Some _ => false end.
Definition isNumber (v : option Z) : bool :=
  match v with Some _ => true | None => false end.
Definition isString (v : option string) : bool :=
  match v with Some _ => true | None => false end.
Definition isObject {A} (v : option A) : bool :=
  match v with Some _ => true | None => false end.
Definition isArray {A} (v : option (list A)) : bool :=
  match v with Some _ => true | None => false end.
Definition isFunction {A} (v : option A) : bool :=
  match v with Some _ => true | None => false end.

(** [array[i]] for a JavaScript number [i]: [undefined] out of range. *)
Definition array_get {A} (array : list (Nullable A)) (i : Z) : Nullable A :=
  if i <? 0 then None else mjoin (array !! Z.to_nat i).

(** Modelled from the spec: [Util.clampIndex], which is not part of the
    available sources.  It clamps an index into the bounds of the array
    (an index at or past the length becomes the last valid index); on an
    empty array there is no valid index and the result is [undefined]. *)
Definition clampIndex {A} (value : Z) (array : list A) : option Z :=
  match array with
  | [] => None
  | _ => Some (Z.min (Z.of_nat (length array) - 1) (Z.max 0 value))
  end.

(** Modelled from the spec: [Util.getNonNil], which is not part of the
    available sources.  [getNonNil(array, -1)] is the last element of the
    chain and [getNonNil(array, -2)] the second-to-last one; the result is
    [null] when the array is absent, the position does not exist, or the
    element there is [null]. *)
Definition getNonNil {A} (array : option (list (Nullable A))) (index : Z) : Nullable A :=
  match array with
  | None => None
  | Some l =>
      array_get l (if index <? 0 then Z.of_nat (length l) + index else index)
  end.

(** Strict equality [a === b] of two nullable file references. *)
Definition strictEq (a b : Nullable FileData) : bool :=
  match a, b with
  | None, None => true
  | Some x, Some y => bool_decide (addr x = addr y)
  | _, _ => false
  end.

Fixpoint elementsStrictEq (a b : list (Nullable FileData)) : bool :=
  match a, b with
  | [], [] => true
  | x :: a', y :: b' => strictEq x y && elementsStrictEq a' b'
  | _, _ => false
  end.

(** [shallowEqualArrays] of the [shallow-equal] package: two absent arrays
    are equal, an absent and a present one are not, two present ones are
    equal when they have the same length and pairwise [===] elements. *)
Definition shallowEqualArrays (a b : option (list (Nullable FileData))) : bool :=
  match a, b with
  | None, None => true
  | Some x, Some y => elementsStrictEq x y
  | _, _ => false
  end.

(** [shallowEqualObjects] of the [shallow-equal] package on two option
    bags: same keys with [===] values. *)
Definition shallowEqualObjects (a b : Options) : bool := bool_decide (a = b).

(** ** Props, state and effects *)

(** A click callback of the host, [FileClickHandler<boolean>]: it returns
    [true], [false] or [undefined]. *)
Definition FileClickHandler := FileData -> Z -> ClickEvent -> bool -> option bool.

(** [FileBrowserProps].  An optional prop is [None] when the host left it
    out.  The two [void] callbacks are kept as a flag telling whether the
    host supplied a function ([isFunction]); calling them is recorded in
    the trace.  [options] is an object prop compared by reference: it is
    paired with the identity of the object.  The props [folderChain],
    [view], [options], [sortProperty] and [sortOrder] carry the prefix
    [prop] to keep them apart from the state fields of the same name. *)
Record FileBrowserProps := mkProps {
  files : list (Nullable FileData);
  propFolderChain : option (list (Nullable FileData));
  onFileSingleClick : option FileClickHandler;
  onFileDoubleClick : option FileClickHandler;
  onFileOpen : bool;
  onSelectionChange : bool;
  disableSelection : option bool;
  propView : option FolderView;
  propOptions : option (positive * Options);
  propSortProperty : option SortProperty;
  propSortOrder : option SortOrder;
}.

(** [FileBrowserState]. *)
Record FileBrowserState := mkState {
  rawFiles : list (Nullable FileData);
  folderChain : option (list (Nullable FileData));
  sortedFiles : list (Nullable FileData);
  fileIndexMap : gmap string Z;
  previousSelectionIndex : option Z;
  selection : Selection;
  view : FolderView;
  options : Options;
  sortProperty : SortProperty;
  sortOrder : SortOrder;
}.

(** What a handler does to the outside world. *)
Inductive Effect :=
| PreventDefault
| CallSelectionChange (s : Selection)
| CallFileOpen (f : FileData)
| CallFileSingleClick (f : FileData) (displayIndex : Z) (e : ClickEvent) (keyboard : bool)
| CallFileDoubleClick (f : FileData) (displayIndex : Z) (e : ClickEvent) (keyboard : bool).

(** A handler: next state and the trace of its effects, oldest first. *)
Definition Action := FileBrowserState -> FileBrowserState * list Effect.

Definition skip : Action := fun st => (st, []).
Definition setState (f : FileBrowserState -> FileBrowserState) : Action :=
  fun st => (f st, []).
Definition call (e : Effect) : Action := fun st => (st, [e]).
Definition andThen (a b : Action) : Action :=
  fun st => let '(st1, t1) := a st in let '(st2, t2) := b st1 in (st2, t1 ++ t2).
Definition when (c : bool) (a : Action) : Action := if c then a else skip.

Notation "a >> b" := (andThen a b) (at level 65, right associativity).

(** Field updates written by [setState({...})]. *)
Definition set_rawFiles v st :=
  mkState v (folderChain st) (sortedFiles st) (fileIndexMap st)
    (previousSelectionIndex st) (selection st) (view st) (options st)
    (sortProperty st) (sortOrder st).
Definition set_folderChain v st :=
  mkState (rawFiles st) v (sortedFiles st) (fileIndexMap st)
    (previousSelectionIndex st) (selection st) (view st) (options st)
    (sortProperty st) (sortOrder st).
Definition set_sorted v m st :=
  mkState (rawFiles st) (folderChain st) v m
    (previousSelectionIndex st) (selection st) (view st) (options st)
    (sortProperty st) (sortOrder st).
Definition set_selection s i st :=
  mkState (rawFiles st) (folderChain st) (sortedFiles st) (fileIndexMap st)
    i s (view st) (options st) (sortProperty st) (sortOrder st).
Definition set_view v st :=
  mkState (rawFiles st) (folderChain st) (sortedFiles st) (fileIndexMap st)
    (previousSelectionIndex st) (selection st) v (options st)
    (sortProperty st) (sortOrder st).
Definition set_options v st :=
  mkState (rawFiles st) (folderChain st) (sortedFiles st) (fileIndexMap st)
    (previousSelectionIndex st) (selection st) (view st) v
    (sortProperty st) (sortOrder st).
Definition set_sortProperty v st :=
  mkState (rawFiles st) (folderChain st) (sortedFiles st) (fileIndexMap st)
    (previousSelectionIndex st) (selection st) (view st) (options st)
    v (sortOrder st).
Definition set_sortOrder v st :=
  mkState (rawFiles st) (folderChain st) (sortedFiles st) (fileIndexMap st)
    (previousSelectionIndex st) (selection st) (view st) (options st)
    (sortProperty st) v.
Definition set_sort p o st := set_sortOrder o (set_sortProperty p st).

(** ** The selection engine: [handleSelectionToggle] *)

(** [file.selectable !== false] *)
Definition canBeSelected (file : FileData) : bool :=
  negb (bool_decide (selectable file = Some false)).

(** The body of the [for] loop of the [Range] case, run for the [n]
    indices [i], [i + 1], ...  The assignment [newSelection[file.id] = true]
    is an insertion into the map of own properties (see [isPrototypeKey]
    for the ids on which the object stores nothing). *)
Fixpoint selectRange (n : nat) (i : Z) (sorted : list (Nullable FileData))
    (newSelection : Selection) : Selection :=
  match n with
  | O => newSelection
  | S n' =>
      let newSelection' :=
        match array_get sorted i with
        | Some file =>
            if canBeSelected file then <[id file := true]> newSelection
            else newSelection
        | None => newSelection
        end in
      selectRange n' (i + 1) sorted newSelection'
  end.

(** The updater passed to [setState]: the new selection and the index to
    persist, computed from [prevState].  Reads and writes of
    [selection[file.id]] are lookups and updates of the map of own
    properties (see [isPrototypeKey] for the ids on which the object
    answers with an inherited member instead). *)
Definition toggleSelection (file : FileData) (displayIndex : Z)
    (type : SelectionType) (prevState : FileBrowserState) : Selection * Z :=
  let oldSelection := selection prevState in
  let prevI := previousSelectionIndex prevState in
  let prevIndex :=
    match prevI with
    | Some p => clampIndex p (sortedFiles prevState)
    | None => None
    end in
  let type :=
    if bool_decide (type = Range) && negb (isNumber prevIndex) then Multiple else type in
  let selectionIndexToPersist :=
    match type, prevIndex with
    | (Multiple | Range), Some p => p
    | _, _ => displayIndex
    end in
  let oldSelected := oldSelection !! id file in
  let newSelection : Selection :=
    match type with
    | Single =>
        if isNil oldSelected && canBeSelected file then <[id file := true]> ∅ else ∅
    | Multiple =>
        if bool_decide (oldSelected = Some true) then delete (id file) oldSelection
        else <[id file := true]> oldSelection
    | Range =>
        (* [prevIndex as number]: in this case [prevIndex] is a number *)
        let indexA := default 0 prevIndex in
        let indexB := displayIndex in
        let '(indexA, indexB) :=
          if indexA >? indexB then (indexB, indexA) else (indexA, indexB) in
        selectRange (Z.to_nat (indexB + 1 - indexA)) indexA (sortedFiles prevState) ∅
    end in
  (newSelection, selectionIndexToPersist).

Definition handleSelectionToggle (props : FileBrowserProps) (file : FileData)
    (displayIndex : Z) (type : SelectionType) : Action :=
  if bool_decide (disableSelection props = Some true) then skip
  else fun prevState =>
    let '(newSelection, selectionIndexToPersist) :=
      toggleSelection file displayIndex type prevState in
    (when (onSelectionChange props) (call (CallSelectionChange newSelection)) >>
     setState (set_selection newSelection (Some selectionIndexToPersist))) prevState.

(** ** The reconciliation controller *)

(** The selection status computed by [UNSAFE_componentWillReceiveProps]
    from the old and the next props. *)
Definition selectionStatusOf (old nextProps : FileBrowserProps) : SelectionStatus :=
  let selectionStatus := Ok in
  let selectionStatus :=
    if negb (shallowEqualArrays (Some (files nextProps)) (Some (files old)))
    then NeedsCleaning else selectionStatus in
  let selectionStatus :=
    if negb (shallowEqualArrays (propFolderChain nextProps) (propFolderChain old))
       && (negb (isArray (propFolderChain nextProps))
           || negb (strictEq (getNonNil (propFolderChain nextProps) (-1))
                             (getNonNil (propFolderChain old) (-1))))
    then NeedsResetting else selectionStatus in
  let selectionStatus :=
    if bool_decide (disableSelection nextProps = Some true)
       && negb (bool_decide (disableSelection nextProps = disableSelection old))
    then NeedsResetting else selectionStatus in
  selectionStatus.

(** [options !== old.options] on the [options] prop, by object identity. *)
Definition sameOptionsObject (a b : option (positive * Options)) : bool :=
  match a, b with
  | None, None => true
  | Some (r, _), Some (r', _) => bool_decide (r = r')
  | _, _ => false
  end.

(** The [NeedsResetting] updater. *)
Definition resetSelection (onSelectionChange : bool) : Action :=
  let selection : Selection := ∅ in
  when onSelectionChange (call (CallSelectionChange selection)) >>
  setState (fun prevState =>
    mkState (rawFiles prevState) (folderChain prevState) (sortedFiles prevState)
      (fileIndexMap prevState) None selection (view prevState)
      (options prevState) (sortProperty prevState) (sortOrder prevState)).

(** The body of [files.map(file => ...)] in the [NeedsCleaning] updater. *)
Definition keepSelected (oldSelection : Selection) (selection : Selection)
    (file : Nullable FileData) : Selection :=
  match file with
  | None => selection
  | Some file =>
      let wasSelected := bool_decide (oldSelection !! id file = Some true) in
      if wasSelected && canBeSelected file then <[id file := true]> selection
      else selection
  end.

(** The [NeedsCleaning] updater. *)
Definition cleanSelection (onSelectionChange : bool) : Action := fun prevState =>
  let files := rawFiles prevState in
  let oldSelection := selection prevState in
  let prevIndex := previousSelectionIndex prevState in
  let previousSelectionIndex :=
    match prevIndex with
    | Some p => clampIndex p files
    | None => None
    end in
  let selection := foldl (keepSelected oldSelection) ∅ files in
  (when onSelectionChange (call (CallSelectionChange selection)) >>
   setState (fun prevState =>
     mkState (rawFiles prevState) (folderChain prevState) (sortedFiles prevState)
       (fileIndexMap prevState) previousSelectionIndex selection (view prevState)
       (options prevState) (sortProperty prevState) (sortOrder prevState)))
    prevState.

Definition UNSAFE_componentWillReceiveProps (old nextProps : FileBrowserProps) : Action :=
  when (negb (shallowEqualArrays (Some (files nextProps)) (Some (files old))))
    (setState (set_rawFiles (files nextProps))) >>
  when (negb (shallowEqualArrays (propFolderChain nextProps) (propFolderChain old)))
    (setState (set_folderChain (propFolderChain nextProps))) >>
  match propView nextProps with
  | Some view =>
      when (negb (bool_decide (Some view = propView old))) (setState (set_view view))
  | None => skip
  end >>
  match propOptions nextProps with
  | Some (_, newOptions) =>
      when (negb (sameOptionsObject (propOptions nextProps) (propOptions old)))
        (setState (fun prevState => set_options (newOptions ∪ options prevState) prevState))
  | None => skip
  end >>
  match propSortProperty nextProps with
  | Some sortProperty =>
      when (negb (bool_decide (Some sortProperty = propSortProperty old)))
        (setState (set_sortProperty sortProperty))
  | None => skip
  end >>
  match propSortOrder nextProps with
  | Some sortOrder =>
      when (negb (bool_decide (Some sortOrder = propSortOrder old)))
        (setState (set_sortOrder sortOrder))
  | None => skip
  end >>
  match selectionStatusOf old nextProps with
  | NeedsResetting => resetSelection (onSelectionChange nextProps)
  | NeedsCleaning => cleanSelection (onSelectionChange nextProps)
  | Ok => skip
  end.

Section SortEngine.

(** [FileUtil.sortFiles] is not part of the available sources; the
    controller is parametric in it. *)
Variable sortFiles :
  list (Nullable FileData) -> Options -> SortProperty -> SortOrder ->
  list (Nullable FileData) * gmap string Z.

Definition needToResort (prevState state : FileBrowserState) : bool :=
  negb (shallowEqualArrays (Some (rawFiles state)) (Some (rawFiles prevState)))
  || negb (shallowEqualObjects (options state) (options prevState))
  || negb (bool_decide (sortProperty state = sortProperty prevState))
  || negb (bool_decide (sortOrder state = sortOrder prevState)).

Definition componentDidUpdate (prevState : FileBrowserState) : Action := fun state =>
  if needToResort prevState state then
    let '(sortedFiles, fileIndexMap) :=
      sortFiles (rawFiles state) (options state) (sortProperty state) (sortOrder state) in
    setState (set_sorted sortedFiles fileIndexMap) state
  else skip state.

(** One update cycle started by the host passing new props: the props
    are received, the queued state updates settle, and
    [componentDidUpdate] runs against the state from before the cycle. *)
Definition propsUpdate (old nextProps : FileBrowserProps) : Action := fun prevState =>
  (UNSAFE_componentWillReceiveProps old nextProps >> componentDidUpdate prevState) prevState.

End SortEngine.

(** ** Controls: view, options, sort column *)

Definition setView (v : FolderView) : Action :=
  setState (fun prevState =>
    if negb (bool_decide (view prevState = v)) then set_view v prevState else prevState).

Definition setOption (name : Option) (value : bool) : Action :=
  setState (fun prevState =>
    let options := options prevState in
    if negb (bool_decide (options !! name = Some value))
    then set_options (<[name := value]> options) prevState
    else prevState).

Definition activateSortProperty (name : SortProperty) : Action :=
  setState (fun prevState =>
    if negb (bool_decide (sortProperty prevState = name)) then
      set_sort name Asc prevState
    else
      let sortOrder := if bool_decide (sortOrder prevState = Asc) then Desc else Asc in
      set_sort name sortOrder prevState).

(** ** The interaction dispatcher *)

(** A key-down event, seen through the three predicates of [Util.ts]
    that the handler applies to it. *)
Record KeyboardEvent := mkKey {
  kbEventIsBackspace : bool;
  kbEventIsSpace : bool;
  kbEventIsEnter : bool;
}.

(** The focused DOM element, seen through the two attributes the handler
    reads with [getAttribute]. *)
Record Element := mkElement {
  data_chonky_file_id : option string;
  data_chonky_instance_id : option string;
}.

Definition handleFileSingleClick (props : FileBrowserProps) (file : FileData)
    (displayIndex : Z) (event : ClickEvent) (keyboard : bool) : Action :=
  let toggle :=
    let type := Single in
    let type := if ctrlKey event then Multiple else type in
    let type := if shiftKey event then Range else type in
    handleSelectionToggle props file displayIndex type in
  match onFileSingleClick props with
  | Some handler =>
      call (CallFileSingleClick file displayIndex event keyboard) >>
      let funcResult := handler file displayIndex event keyboard in
      let preventDefault := bool_decide (funcResult = Some true) in
      if preventDefault then skip else toggle
  | None => toggle
  end.

Definition handleFileDoubleClick (props : FileBrowserProps) (file : FileData)
    (displayIndex : Z) (event : ClickEvent) (keyboard : bool) : Action :=
  let openFile :=
    when (onFileOpen props && negb (bool_decide (openable file = Some false)))
      (call (CallFileOpen file)) in
  match onFileDoubleClick props with
  | Some handler =>
      call (CallFileDoubleClick file displayIndex event keyboard) >>
      let funcResult := handler file displayIndex event keyboard in
      let preventDefault := bool_decide (funcResult = Some true) in
      if preventDefault then skip else openFile
  | None => openFile
  end.

Definition handleKeyPress (instanceId : string) (props : FileBrowserProps)
    (event : KeyboardEvent) (activeElem : Nullable Element) : Action := fun state =>
  let isBackspace := kbEventIsBackspace event in
  let isSpace := kbEventIsSpace event in
  let isEnter := kbEventIsEnter event in
  if negb isBackspace && negb isSpace && negb isEnter then skip state
  else
    (call PreventDefault >>
     if isBackspace then
       match getNonNil (propFolderChain props) (-2) with
       | None => skip
       | Some parentFolder =>
           if bool_decide (openable parentFolder = Some false) then skip
           else when (onFileOpen props) (call (CallFileOpen parentFolder))
       end
     else
       let fileId := activeElem ≫= data_chonky_file_id in
       let elemInstanceId := activeElem ≫= data_chonky_instance_id in
       if negb (isString elemInstanceId)
          || negb (bool_decide (elemInstanceId = Some instanceId)) then skip
       else
         match fileId with
         | None => skip
         | Some fileId =>
             match fileIndexMap state !! fileId with
             | None => skip
             | Some displayIndex =>
                 if (displayIndex <? 0)
                    || (displayIndex >=? Z.of_nat (length (sortedFiles state))) then skip
                 else
                   match array_get (sortedFiles state) displayIndex with
                   | None => skip
                   | Some file =>
                       let clickEvent := {| ctrlKey := true; shiftKey := false |} in
                       if isSpace then
                         handleFileSingleClick props file displayIndex clickEvent true
                       else if isEnter then
                         handleFileDoubleClick props file displayIndex clickEvent true
                       else skip
                   end
             end
         end) state.

(** ** Concrete scenarios

    A folder with three files, the second of which is marked
    [selectable: false], shown in the order [report], [locked], [notes]. *)

Definition report : FileData := mkFile 1 "a" "report.txt" None None.
Definition locked : FileData := mkFile 2 "b" "locked.txt" (Some false) None.
Definition notes : FileData := mkFile 3 "c" "notes.txt" None None.

Definition demoFiles : list (Nullable FileData) := [Some report; Some locked; Some notes].

Definition demoProps : FileBrowserProps :=
  {| files := demoFiles; propFolderChain := None;
     onFileSingleClick := None; onFileDoubleClick := None;
     onFileOpen := true; onSelectionChange := true;
     disableSelection := None; propView := None; propOptions := None;
     propSortProperty := None; propSortOrder := None |}.

Definition demoState (sel : Selection) (anchor : option Z) : FileBrowserState :=
  {| rawFiles := demoFiles; folderChain := None; sortedFiles := demoFiles;
     fileIndexMap := <["a" := 0]> (<["b" := 1]> (<["c" := 2]> ∅));
     previousSelectionIndex := anchor; selection := sel;
     view := Details; options := ∅; sortProperty := Name; sortOrder := Asc |}.

(** [report] and [notes] selected, no anchor. *)
Definition twoSelected : FileBrowserState :=
  demoState {["a" := true; "c" := true]} None.

(** [notes] selected, anchor on the first row. *)
Definition anchoredAtTop : FileBrowserState := demoState {["c" := true]} (Some 0).

(** Nothing selected, anchor on the first row. *)
Definition emptyAnchored : FileBrowserState := demoState ∅ (Some 0).

(** The host removes [locked] from the folder. *)
Definition afterRemoval : FileBrowserProps :=
  {| files := [Some report; Some notes]; propFolderChain := None;
     onFileSingleClick := None; onFileDoubleClick := None;
     onFileOpen := true; onSelectionChange := true;
     disableSelection := None; propView := None; propOptions := None;
     propSortProperty := None; propSortOrder := None |}.

(** Folders of a breadcrumb. *)
Definition Root : FileData := mkFile 10 "root" "Root" None None.
Definition Docs : FileData := mkFile 11 "docs" "Docs" None None.
Definition Pics : FileData := mkFile 12 "pics" "Pics" None None.

Definition inFolder (chain : list (Nullable FileData)) : FileBrowserProps :=
  {| files := demoFiles; propFolderChain := Some chain;
     onFileSingleClick := None; onFileDoubleClick := None;
     onFileOpen := true; onSelectionChange := true;
     disableSelection := None; propView := None; propOptions := None;
     propSortProperty := None; propSortOrder := None |}.

(** The host asks for another sort column and changes nothing else. *)
Definition sortedBySize : FileBrowserProps :=
  {| files := demoFiles; propFolderChain := None;
     onFileSingleClick := None; onFileDoubleClick := None;
     onFileOpen := true; onSelectionChange := true;
     disableSelection := None; propView := None; propOptions := None;
     propSortProperty := Some Size; propSortOrder := None |}.

(** A stand-in sort engine that keeps the order and indexes nothing. *)
Definition keepOrder (fs : list (Nullable FileData)) (_ : Options)
    (_ : SortProperty) (_ : SortOrder) : list (Nullable FileData) * gmap string Z :=
  (fs, ∅).

Definition spaceKey : KeyboardEvent := mkKey false true false.
Definition enterKey : KeyboardEvent := mkKey false false true.
Definition backspaceKey : KeyboardEvent := mkKey true false false.

(** The DOM element of a file row of the browser instance ["chonky-1"]. *)
Definition rowOf (file : FileData) : Element :=
  mkElement (Some (id file)) (Some "chonky-1").

(** ** The constructor and handler-driven update cycles *)

(** The defaults of the [options] state, before the host's [options]
    prop is spread over them. *)
Definition defaultOptions : Options :=
  <[ShowHidden := true]> (<[FoldersFirst := true]> (<[ShowExtensions := true]>
    (<[ConfirmDeletions := true]> (<[DisableSelection := true]> ∅)))).

(** The constructor: the initial state computed from the props, with
    [FileUtil.sortFiles] as a parameter. *)
Definition constructor
    (sortFiles : list (Nullable FileData) -> Options -> SortProperty -> SortOrder ->
                 list (Nullable FileData) * gmap string Z)
    (props : FileBrowserProps) : FileBrowserState :=
  let rawFiles := files props in
  let folderChain := propFolderChain props in
  let selection : Selection := ∅ in
  let view := match propView props with Some v => v | None => Details end in
  let options :=
    match propOptions props with
    | Some (_, propOptions) => propOptions ∪ defaultOptions
    | None => defaultOptions
    end in
  let sortProperty :=
    match propSortProperty props with Some p => p | None => Name end in
  let sortOrder := match propSortOrder props with Some o => o | None => Asc end in
  let '(sortedFiles, fileIndexMap) := sortFiles rawFiles options sortProperty sortOrder in
  {| rawFiles := rawFiles; folderChain := folderChain; sortedFiles := sortedFiles;
     fileIndexMap := fileIndexMap; previousSelectionIndex := None;
     selection := selection; view := view; options := options;
     sortProperty := sortProperty; sortOrder := sortOrder |}.

(** One update cycle started by a handler of the component itself: its
    state updates settle, then [componentDidUpdate] runs against the state
    from before the cycle. *)
Definition handlerUpdate
    (sortFiles : list (Nullable FileData) -> Options -> SortProperty -> SortOrder ->
                 list (Nullable FileData) * gmap string Z)
    (handler : Action) : Action := fun prevState =>
  (handler >> componentDidUpdate sortFiles prevState) prevState.

(** The sorted view shown is the one the sort engine gives for the
    current raw files, options, sort property and sort order. *)
Definition sortedViewCurrent
    (sortFiles : list (Nullable FileData) -> Options -> SortProperty -> SortOrder ->
                 list (Nullable FileData) * gmap string Z)
    (st : FileBrowserState) : Prop :=
  (sortedFiles st, fileIndexMap st)
  = sortFiles (rawFiles st) (options st) (sortProperty st) (sortOrder st).

(** Every selected id is the id of a file of the sorted view that is not
    marked [selectable: false]. *)
Definition selectionValid (st : FileBrowserState) : Prop :=
  ∀ k, selected (selection st) k →
       ∃ j f, array_get (sortedFiles st) j = Some f ∧ id f = k
              ∧ selectable f ≠ Some false.

(** The anchor, when there is one, is an index of the sorted view. *)
Definition anchorInBounds (st : FileBrowserState) : Prop :=
  ∀ a, previousSelectionIndex st = Some a →
       0 ≤ a < Z.of_nat (length (sortedFiles st)).

(** More scenarios: selection switched off by the host, a host that
    handles every click itself, and the modifier keys of a pointer click. *)
Definition selectionOff : FileBrowserProps :=
  {| files := demoFiles; propFolderChain := None;
     onFileSingleClick := None; onFileDoubleClick := None;
     onFileOpen := true; onSelectionChange := true;
     disableSelection := Some true; propView := None; propOptions := None;
     propSortProperty := None; propSortOrder := None |}.

Definition hostHandlesClicks : FileBrowserProps :=
  {| files := demoFiles; propFolderChain := None;
     onFileSingleClick := Some (fun _ _ _ _ => Some true);
     onFileDoubleClick := Some (fun _ _ _ _ => Some true);
     onFileOpen := true; onSelectionChange := true;
     disableSelection := None; propView := None; propOptions := None;
     propSortProperty := None; propSortOrder := None |}.

(** The host passes an [options] object that hides hidden files. *)
Definition hidingHidden : FileBrowserProps :=
  {| files := demoFiles; propFolderChain := None;
     onFileSingleClick := None; onFileDoubleClick := None;
     onFileOpen := true; onSelectionChange := true;
     disableSelection := None; propView := None;
     propOptions := Some (7%positive, <[ShowHidden := false]> ∅);
     propSortProperty := None; propSortOrder := None |}.

Definition plainClick : ClickEvent := mkClick false false.
Definition ctrlClick : ClickEvent := mkClick true false.
Definition shiftClick : ClickEvent := mkClick false true.
Definition ctrlShiftClick : ClickEvent := mkClick true true.

(** A folder that cannot be opened. *)
Definition sealed : FileData := mkFile 4 "d" "sealed" None (Some false).

(** * Properties *)

(** ** Running actions *)

Lemma run_setState f (b : Action) st : (setState f >> b) st = b (f st).
Proof. unfold andThen, setState. by destruct (b (f st)). Qed.

Lemma run_skip (b : Action) st : (skip >> b) st = b st.
Proof. unfold andThen, skip. by destruct (b st). Qed.

Lemma run_when_setState c f (b : Action) st :
  (when c (setState f) >> b) st = b (if c then f st else st).
Proof. destruct c; simpl; [apply run_setState | apply run_skip]. Qed.

Lemma run_call e (b : Action) st :
  (call e >> b) st = ((b st).1, e :: (b st).2).
Proof. unfold andThen, call. by destruct (b st). Qed.

Lemma run_when_call c e f st :
  (when c (call e) >> setState f) st = (f st, if c then [e] else []).
Proof. by destruct c. Qed.

(** ** Helpers *)

Lemma canBeSelected_true file : canBeSelected file = true ↔ selectable file ≠ Some false.
Proof.
  unfold canBeSelected. rewrite negb_true_iff, bool_decide_eq_false. done.
Qed.

Lemma clampIndex_in_bounds {A} (array : list A) (a : Z) :
  0 ≤ a < Z.of_nat (length array) → clampIndex a array = Some a.
Proof.
  intros Ha. destruct array as [|x l]; simpl in *; [lia|].
  f_equal. lia.
Qed.

Lemma clampIndex_range {A} (array : list A) (a c : Z) :
  clampIndex a array = Some c → 0 ≤ c < Z.of_nat (length array).
Proof.
  destruct array as [|x l]; simpl; [done|].
  intros [= <-]. lia.
Qed.

Lemma clampIndex_empty {A} (a : Z) : clampIndex a (@nil A) = None.
Proof. done. Qed.

Lemma clampIndex_past_end {A} (array : list A) (a : Z) :
  array ≠ [] → Z.of_nat (length array) ≤ a →
  clampIndex a array = Some (Z.of_nat (length array) - 1).
Proof.
  intros Hne Ha. destruct array as [|x l]; [done|]. simpl in *. f_equal. lia.
Qed.

(** What the [Range] loop selects. *)
Lemma selectRange_selected n i sorted (sel : gmap string bool) k :
  selected (selectRange n i sorted sel) k ↔
  selected sel k ∨
  ∃ j file, i ≤ j < i + Z.of_nat n ∧ array_get sorted j = Some file
            ∧ canBeSelected file = true ∧ id file = k.
Proof.
  unfold selected. revert i sel. induction n as [|n IH]; intros i sel.
  - simpl. split; [by left|]. intros [H|(j & f & Hj & _)]; [done | lia].
  - cbn [selectRange]. rewrite IH. split.
    + intros [H|(j & f & Hj & Hget & Hsel & Hid)].
      * destruct (array_get sorted i) as [f|] eqn:Hget; [|by left].
        destruct (canBeSelected f) eqn:Hsel; [|by left].
        destruct (decide (id f = k)) as [Heq|Hne].
        -- right. exists i, f. repeat split; [lia | lia | done ..].
        -- left. by rewrite lookup_insert_ne in H.
      * right. exists j, f. repeat split; [lia | lia | done ..].
    + intros [H|(j & f & Hj & Hget & Hsel & Hid)].
      * left. destruct (array_get sorted i) as [f|]; [|done].
        destruct (canBeSelected f); [|done].
        destruct (decide (id f = k)) as [<-|Hne].
        -- by rewrite lookup_insert_eq.
        -- by rewrite lookup_insert_ne.
      * destruct (decide (j = i)) as [->|Hne].
        -- left. rewrite Hget, Hsel. subst k. by rewrite lookup_insert_eq.
        -- right. exists j, f. repeat split; [lia | lia | done ..].
Qed.

Lemma selectRange_values n i sorted (sel : gmap string bool) :
  (∀ k b, sel !! k = Some b → b = true) →
  ∀ k b, selectRange n i sorted sel !! k = Some b → b = true.
Proof.
  revert i sel. induction n as [|n IH]; intros i sel Hsel; [done|].
  cbn [selectRange]. apply IH.
  destruct (array_get sorted i) as [f|]; [|done].
  destruct (canBeSelected f); [|done].
  intros k b. destruct (decide (id f = k)) as [<-|Hne].
  - rewrite lookup_insert_eq. congruence.
  - rewrite lookup_insert_ne by done. apply Hsel.
Qed.

Lemma handleSelectionToggle_enabled props file displayIndex type st :
  disableSelection props ≠ Some true →
  handleSelectionToggle props file displayIndex type st =
  (set_selection (toggleSelection file displayIndex type st).1
     (Some (toggleSelection file displayIndex type st).2) st,
   if onSelectionChange props
   then [CallSelectionChange (toggleSelection file displayIndex type st).1]
   else []).
Proof.
  intros Hen. unfold handleSelectionToggle.
  rewrite bool_decide_eq_false_2 by done.
  destruct (toggleSelection file displayIndex type st) as [s i].
  by rewrite run_when_call.
Qed.

Lemma handleSelectionToggle_disabled props file displayIndex type st :
  disableSelection props = Some true →
  handleSelectionToggle props file displayIndex type st = (st, []).
Proof.
  intros Hdis. unfold handleSelectionToggle. by rewrite bool_decide_eq_true_2.
Qed.

(** The [Single] and the [Range] case never select a file that is marked
    [selectable: false]; with C1 below, the [Multiple] case is the only
    one that does. *)
Lemma toggle_single_selects_selectable file displayIndex st k :
  selected (toggleSelection file displayIndex Single st).1 k →
  k = id file ∧ selectable file ≠ Some false.
Proof.
  unfold toggleSelection, selected. simpl.
  destruct (isNil _ && canBeSelected file) eqn:Hc; [|by rewrite lookup_empty].
  apply andb_true_iff in Hc as [_ Hc%canBeSelected_true].
  destruct (decide (id file = k)) as [<-|Hne]; [done|].
  by rewrite lookup_insert_ne, lookup_empty.
Qed.

Lemma toggle_range_selects_selectable file displayIndex st a k :
  previousSelectionIndex st = Some a →
  0 ≤ a < Z.of_nat (length (sortedFiles st)) →
  selected (toggleSelection file displayIndex Range st).1 k →
  ∃ j f, array_get (sortedFiles st) j = Some f ∧ id f = k
         ∧ selectable f ≠ Some false.
Proof.
  intros Hprev Ha. unfold toggleSelection. rewrite Hprev.
  rewrite (clampIndex_in_bounds _ _ Ha). simpl.
  destruct (a >? displayIndex); simpl;
    rewrite selectRange_selected; unfold selected; rewrite lookup_empty;
    (intros [H|(j & f & _ & Hget & Hsel%canBeSelected_true & Hid)]; [done|]);
    by exists j, f.
Qed.

(** ** The selection engine *)

(** C1 (fails on the code).  A file marked [selectable: false] must never
    enter the selection, whatever the mode.  The [Single] and [Range]
    cases test [file.selectable !== false]; the [Multiple] case does not.
    Here [locked] is not selectable and the selection is empty: a toggle
    in [Multiple] mode selects it, so does a [Range] toggle without an
    anchor (it falls back to [Multiple]), and so does the space key on the
    focused row (keyboard activation is a ctrl-click). *)
Theorem C1_multiple_selects_unselectable :
  selectable locked = Some false
  ∧ selected (selection (handleSelectionToggle demoProps locked 1 Multiple
                           (demoState ∅ None)).1) (id locked)
  ∧ selected (selection (handleSelectionToggle demoProps locked 1 Range
                           (demoState ∅ None)).1) (id locked)
  ∧ selected (selection (handleKeyPress "chonky-1" demoProps spaceKey
                           (Some (rowOf locked)) (demoState ∅ None)).1) (id locked).
Proof. unfold selected. vm_compute. done. Qed.

(** C2 as stated is false: [report] is selected together with [notes]; a
    [Single] toggle on [report] deselects it (and [notes]). *)
Lemma C2_single_toggle_deselects :
  selected (selection twoSelected) (id report)
  ∧ ¬ (∀ k, selected (selection (handleSelectionToggle demoProps report 0 Single
                                   twoSelected).1) k
            ↔ selected (selection twoSelected) k).
Proof.
  split; [by vm_compute|].
  intros H. specialize (H "a"). unfold selected in H. vm_compute in H.
  by destruct H as [_ H]; specialize (H eq_refl).
Qed.

(** C2 (amended).  When selection is not disabled and the target file is
    already selected, a toggle in [Single] mode empties the selection; the
    anchor becomes the target index. *)
Theorem C2_single_on_selected_clears props file displayIndex st :
  disableSelection props ≠ Some true →
  selected (selection st) (id file) →
  selection (handleSelectionToggle props file displayIndex Single st).1 = ∅
  ∧ previousSelectionIndex (handleSelectionToggle props file displayIndex Single st).1
    = Some displayIndex.
Proof.
  intros Hen Hsel. rewrite handleSelectionToggle_enabled by done.
  unfold toggleSelection, selected in *. simpl. by rewrite Hsel.
Qed.

Lemma C2_single_on_selected_clears_witness :
  disableSelection demoProps ≠ Some true
  ∧ selected (selection twoSelected) (id report)
  ∧ selection (handleSelectionToggle demoProps report 0 Single
                 twoSelected).1 = ∅.
Proof.
  split; [done|]. split; [by vm_compute|].
  apply (C2_single_on_selected_clears demoProps report 0
           twoSelected); [done | by vm_compute].
Defined.

(** C3 as stated is false: the anchor is at index 0, [notes] (index 2) is
    selected, and a [Range] toggle targets index 1.  [notes] lies outside
    the range and is no longer selected afterwards. *)
Lemma C3_range_drops_outside :
  previousSelectionIndex anchoredAtTop = Some 0
  ∧ 0 ≤ 0 < Z.of_nat (length (sortedFiles anchoredAtTop))
  ∧ array_get (sortedFiles anchoredAtTop) 2 = Some notes
  ∧ selected (selection anchoredAtTop) (id notes)
  ∧ ¬ selected (selection (handleSelectionToggle demoProps locked 1 Range
                             anchoredAtTop).1) (id notes).
Proof.
  unfold selected. repeat split; try done; try by vm_compute.
Qed.

(** C3 (amended).  When selection is not disabled and the anchor is a
    valid index of the sorted view, a toggle in [Range] mode produces a
    selection in which every entry is [true] and which, among the ids that
    are not names of members of [Object.prototype], holds exactly the ids
    of the non-null, selectable files at the indices between
    [min(anchor, targetIndex)] and [max(anchor, targetIndex)] inclusive:
    the range replaces the previous selection. *)
Theorem C3_range_selects_exactly props file displayIndex st a :
  disableSelection props ≠ Some true →
  previousSelectionIndex st = Some a →
  0 ≤ a < Z.of_nat (length (sortedFiles st)) →
  (∀ k, isPrototypeKey k = false →
        (selected (selection (handleSelectionToggle props file displayIndex Range
                                st).1) k
         ↔ ∃ j f, Z.min a displayIndex ≤ j ≤ Z.max a displayIndex
                  ∧ array_get (sortedFiles st) j = Some f
                  ∧ selectable f ≠ Some false ∧ id f = k))
  ∧ (∀ k b, selection (handleSelectionToggle props file displayIndex Range st).1 !! k
            = Some b → b = true).
Proof.
  intros Hen Hprev Ha. rewrite handleSelectionToggle_enabled by done.
  unfold toggleSelection. rewrite Hprev, (clampIndex_in_bounds _ _ Ha). simpl.
  assert (Hrange : ∀ lo hi k, lo ≤ hi →
    selected (selectRange (Z.to_nat (hi + 1 - lo)) lo (sortedFiles st) ∅) k
    ↔ ∃ j f, lo ≤ j ≤ hi ∧ array_get (sortedFiles st) j = Some f
             ∧ selectable f ≠ Some false ∧ id f = k).
  { intros lo hi k Hle. rewrite selectRange_selected. unfold selected.
    rewrite lookup_empty. split.
    - intros [H|(j & f & Hj & Hget & Hsel%canBeSelected_true & Hid)]; [done|].
      exists j, f. repeat split; [lia | lia | done ..].
    - intros (j & f & Hj & Hget & Hsel%canBeSelected_true & Hid).
      right. exists j, f. repeat split; [lia | lia | done ..]. }
  destruct (a >? displayIndex) eqn:Hcmp; simpl.
  - apply Z.gtb_lt in Hcmp. rewrite Z.min_r, Z.max_l by lia. split.
    + intros k _. apply Hrange. lia.
    + apply selectRange_values. intros k b. by rewrite lookup_empty.
  - rewrite Z.gtb_ltb in Hcmp. apply Z.ltb_ge in Hcmp.
    rewrite Z.min_l, Z.max_r by lia. split.
    + intros k _. by apply Hrange.
    + apply selectRange_values. intros k b. by rewrite lookup_empty.
Qed.

Lemma C3_range_selects_exactly_witness :
  disableSelection demoProps ≠ Some true
  ∧ previousSelectionIndex anchoredAtTop = Some 0
  ∧ 0 ≤ 0 < Z.of_nat (length (sortedFiles anchoredAtTop))
  ∧ isPrototypeKey "a" = false
  ∧ (selected (selection (handleSelectionToggle demoProps locked 1 Range
                            anchoredAtTop).1) "a"
     ↔ ∃ j f, Z.min 0 1 ≤ j ≤ Z.max 0 1
              ∧ array_get (sortedFiles anchoredAtTop) j = Some f
              ∧ selectable f ≠ Some false ∧ id f = "a").
Proof.
  split; [done|]. split; [done|]. split; [simpl; lia|]. split; [done|].
  apply (C3_range_selects_exactly demoProps locked 1 anchoredAtTop 0);
    [done | done | simpl; lia | done].
Defined.

(** C4 as stated is false: with the anchor at index 0, a [Multiple] toggle
    on the file at index 2 leaves the anchor at 0. *)
Lemma C4_multiple_keeps_anchor :
  previousSelectionIndex
    (handleSelectionToggle demoProps notes 2 Multiple emptyAnchored).1
  ≠ Some 2.
Proof. by vm_compute. Qed.

(** C4 (amended).  When selection is not disabled, a toggle in [Multiple]
    mode on a file that is not marked [selectable: false] and whose id is
    not the name of a member of [Object.prototype] flips the membership of
    the target id and leaves every other id as it was; the resulting
    anchor is the previous anchor clamped into the sorted view when
    clamping gives an index (there is a previous anchor and the sorted
    view is not empty), and the target index otherwise. *)
Theorem C4_multiple_flips props file displayIndex st :
  disableSelection props ≠ Some true →
  selectable file ≠ Some false →
  isPrototypeKey (id file) = false →
  (selected (selection (handleSelectionToggle props file displayIndex Multiple st).1) (id file)
   ↔ ¬ selected (selection st) (id file))
  ∧ (∀ k, k ≠ id file →
       selection (handleSelectionToggle props file displayIndex Multiple st).1 !! k
       = selection st !! k)
  ∧ previousSelectionIndex (handleSelectionToggle props file displayIndex Multiple st).1
    = Some (default displayIndex
              (previousSelectionIndex st ≫= λ p, clampIndex p (sortedFiles st))).
Proof.
  intros Hen _ _. rewrite handleSelectionToggle_enabled by done.
  unfold toggleSelection, selected. simpl.
  split; [|split].
  - case_bool_decide as Hold.
    + rewrite lookup_delete_eq. naive_solver.
    + rewrite lookup_insert_eq. naive_solver.
  - intros k Hk. case_bool_decide.
    + by rewrite lookup_delete_ne.
    + by rewrite lookup_insert_ne.
  - destruct (previousSelectionIndex st) as [p|]; simpl; [|done].
    by destruct (clampIndex p (sortedFiles st)).
Qed.

Lemma C4_multiple_flips_witness :
  disableSelection demoProps ≠ Some true
  ∧ selectable notes ≠ Some false
  ∧ isPrototypeKey (id notes) = false
  ∧ previousSelectionIndex
      (handleSelectionToggle demoProps notes 2 Multiple emptyAnchored).1
    = Some (default 2 (previousSelectionIndex emptyAnchored
                         ≫= λ p, clampIndex p (sortedFiles emptyAnchored))).
Proof.
  split; [done|]. split; [done|]. split; [done|].
  apply (C4_multiple_flips demoProps notes 2 emptyAnchored); done.
Defined.

(** ** The reconciliation controller *)

(** Arrays that are shallowly equal hold the same reference at every
    position, hence the same terminal folder. *)
Lemma elementsStrictEq_get a b i :
  elementsStrictEq a b = true →
  length a = length b ∧ strictEq (array_get a i) (array_get b i) = true.
Proof.
  intros H. split.
  - revert b H. induction a as [|x a IH]; intros [|y b]; simpl; try done.
    intros [_ H]%andb_true_iff. by rewrite (IH _ H).
  - unfold array_get. destruct (i <? 0); [done|].
    generalize (Z.to_nat i) as n. revert b H.
    induction a as [|x a IH]; intros [|y b]; simpl; try done.
    intros [Hxy H]%andb_true_iff [|n]; simpl; [done|]. by apply IH.
Qed.

Lemma shallowEqualArrays_getNonNil a b i :
  shallowEqualArrays a b = true →
  strictEq (getNonNil a i) (getNonNil b i) = true.
Proof.
  destruct a as [a|], b as [b|]; simpl; try done.
  intros H. destruct (elementsStrictEq_get a b 0 H) as [-> _].
  by apply elementsStrictEq_get.
Qed.

Lemma elementsStrictEq_Forall2 a b :
  elementsStrictEq a b = true ↔ Forall2 (λ x y, strictEq x y = true) a b.
Proof.
  revert b. induction a as [|x a IH]; intros [|y b]; simpl.
  - split; [constructor | done].
  - split; [done | inversion 1].
  - split; [done | inversion 1].
  - rewrite andb_true_iff, IH. split.
    + intros [??]. by constructor.
    + by inversion 1.
Qed.

(** The state updates queued before the selection is reconciled leave the
    selection and the anchor alone and emit nothing. *)
Lemma receiveProps_run old nextProps st :
  ∃ st1,
    UNSAFE_componentWillReceiveProps old nextProps st =
    (match selectionStatusOf old nextProps with
     | NeedsResetting => resetSelection (onSelectionChange nextProps)
     | NeedsCleaning => cleanSelection (onSelectionChange nextProps)
     | Ok => skip
     end) st1
    ∧ selection st1 = selection st
    ∧ previousSelectionIndex st1 = previousSelectionIndex st
    ∧ rawFiles st1 =
      (if shallowEqualArrays (Some (files nextProps)) (Some (files old))
       then rawFiles st else files nextProps).
Proof.
  unfold UNSAFE_componentWillReceiveProps.
  rewrite !run_when_setState.
  destruct (propView nextProps) as [v|];
    [rewrite run_when_setState | rewrite run_skip];
  (destruct (propOptions nextProps) as [[r o]|];
    [rewrite run_when_setState | rewrite run_skip]);
  (destruct (propSortProperty nextProps) as [p|];
    [rewrite run_when_setState | rewrite run_skip]);
  (destruct (propSortOrder nextProps) as [q|];
    [rewrite run_when_setState | rewrite run_skip]);
  (eexists; split; [reflexivity|]);
  destruct (shallowEqualArrays (Some (files nextProps)) (Some (files old)));
  cbn [negb];
  repeat match goal with |- context [if ?c then _ else _] => destruct c end;
  done.
Qed.

Lemma keepSelected_fold_selected old files (acc : gmap string bool) k :
  selected (foldl (keepSelected old) acc files) k ↔
  selected acc k ∨
  (selected old k ∧ ∃ f, Some f ∈ files ∧ id f = k ∧ selectable f ≠ Some false).
Proof.
  unfold selected. revert acc. induction files as [|x files IH]; intros acc; simpl.
  - split; [by left|]. intros [H|[_ (f & Hf & _)]]; [done|]. by apply elem_of_nil in Hf.
  - rewrite IH. clear IH. split.
    + intros [H|(Hold & f & Hf & Hid & Hsel)].
      * destruct x as [f|]; simpl in H; [|by left].
        case_bool_decide as Hold; simpl in H; [|by left].
        destruct (canBeSelected f) eqn:Hsel; [|by left].
        destruct (decide (id f = k)) as [<-|Hne].
        -- right. split; [done|]. exists f. split; [left|]. split; [done|].
           by apply canBeSelected_true.
        -- left. by rewrite lookup_insert_ne in H.
      * right. split; [done|]. exists f. split; [by right | done].
    + intros [H|(Hold & f & Hf & Hid & Hsel)].
      * left. destruct x as [f|]; simpl; [|done].
        destruct (_ && _); [|done].
        destruct (decide (id f = k)) as [<-|Hne].
        -- by rewrite lookup_insert_eq.
        -- by rewrite lookup_insert_ne.
      * apply elem_of_cons in Hf as [Hx|Hf].
        -- left. subst x. simpl. rewrite Hid, bool_decide_eq_true_2 by done.
           apply canBeSelected_true in Hsel. rewrite Hsel. simpl.
           rewrite <- Hid. by rewrite lookup_insert_eq.
        -- right. split; [done|]. by exists f.
Qed.

Lemma keepSelected_fold_values old files (acc : gmap string bool) :
  (∀ k b, acc !! k = Some b → b = true) →
  ∀ k b, foldl (keepSelected old) acc files !! k = Some b → b = true.
Proof.
  revert acc. induction files as [|x files IH]; intros acc Hacc; [done|].
  simpl. apply IH. destruct x as [f|]; [|done]. simpl.
  destruct (_ && _); [|done].
  intros k b. destruct (decide (id f = k)) as [<-|Hne].
  - rewrite lookup_insert_eq. congruence.
  - rewrite lookup_insert_ne by done. apply Hacc.
Qed.

Lemma cleanSelection_run cb st :
  cleanSelection cb st =
  (set_selection (foldl (keepSelected (selection st)) ∅ (rawFiles st))
     (previousSelectionIndex st ≫= λ p, clampIndex p (rawFiles st)) st,
   if cb then [CallSelectionChange (foldl (keepSelected (selection st)) ∅ (rawFiles st))]
   else []).
Proof.
  unfold cleanSelection. rewrite run_when_call. unfold set_selection.
  by destruct (previousSelectionIndex st).
Qed.

(** When the status is [NeedsCleaning]: the file list changed (shallow
    comparison), the folder chain either did not change or is still an
    array with the same terminal folder, and selection was not switched
    off by this update. *)
Lemma selectionStatus_cleaning_iff old nextProps :
  selectionStatusOf old nextProps = NeedsCleaning ↔
  shallowEqualArrays (Some (files nextProps)) (Some (files old)) = false
  ∧ (shallowEqualArrays (propFolderChain nextProps) (propFolderChain old) = true
     ∨ (isArray (propFolderChain nextProps) = true
        ∧ strictEq (getNonNil (propFolderChain nextProps) (-1))
                   (getNonNil (propFolderChain old) (-1)) = true))
  ∧ ¬ (disableSelection nextProps = Some true
       ∧ disableSelection nextProps ≠ disableSelection old).
Proof.
  unfold selectionStatusOf.
  destruct (shallowEqualArrays (Some _) (Some _));
    destruct (shallowEqualArrays (propFolderChain _) _);
    destruct (isArray _); destruct (strictEq _ _);
    repeat case_bool_decide; cbn; intuition congruence.
Qed.

Lemma status_cleaning_files_changed old nextProps :
  selectionStatusOf old nextProps = NeedsCleaning →
  shallowEqualArrays (Some (files nextProps)) (Some (files old)) = false.
Proof.
  unfold selectionStatusOf.
  destruct (shallowEqualArrays (Some _) (Some _)); [|done].
  simpl. by repeat match goal with |- context [if ?c then _ else _] => destruct c end.
Qed.

(** [componentDidUpdate] only stores the sorted view: the selection, the
    anchor and the trace of an update cycle are those of
    [UNSAFE_componentWillReceiveProps]. *)
Lemma propsUpdate_selection sortFiles old nextProps st :
  selection (propsUpdate sortFiles old nextProps st).1
  = selection (UNSAFE_componentWillReceiveProps old nextProps st).1
  ∧ previousSelectionIndex (propsUpdate sortFiles old nextProps st).1
    = previousSelectionIndex (UNSAFE_componentWillReceiveProps old nextProps st).1
  ∧ (propsUpdate sortFiles old nextProps st).2
    = (UNSAFE_componentWillReceiveProps old nextProps st).2.
Proof.
  unfold propsUpdate, andThen.
  destruct (UNSAFE_componentWillReceiveProps old nextProps st) as [st1 t1].
  unfold componentDidUpdate. destruct (needToResort st st1).
  - destruct (sortFiles _ _ _ _) as [s m]. simpl. by rewrite app_nil_r.
  - simpl. by rewrite app_nil_r.
Qed.

(** C5.  When the selection status of a property update is
    [NeedsCleaning], the new selection is the previous selection
    restricted to the ids of the files of the new list that are not marked
    [selectable: false], each mapped to [true]; the previous anchor is clamped into the bounds of
    the new list and is undefined when the list is empty; and the
    selection-change callback, when the host supplied one, is called with
    the pruned selection whether or not it differs from the old one. *)
Theorem C5_cleaning_prunes sortFiles old nextProps st :
  selectionStatusOf old nextProps = NeedsCleaning →
  (∀ k, selected (selection (propsUpdate sortFiles old nextProps st).1) k
        ↔ selected (selection st) k
          ∧ ∃ f, Some f ∈ files nextProps ∧ id f = k ∧ selectable f ≠ Some false)
  ∧ (∀ k b, selection (propsUpdate sortFiles old nextProps st).1 !! k = Some b →
            b = true)
  ∧ previousSelectionIndex (propsUpdate sortFiles old nextProps st).1
    = previousSelectionIndex st ≫= (λ p, clampIndex p (files nextProps))
  ∧ (∀ c, previousSelectionIndex (propsUpdate sortFiles old nextProps st).1 = Some c →
          0 ≤ c < Z.of_nat (length (files nextProps)))
  ∧ (files nextProps = [] →
     previousSelectionIndex (propsUpdate sortFiles old nextProps st).1 = None)
  ∧ (propsUpdate sortFiles old nextProps st).2
    = (if onSelectionChange nextProps
       then [CallSelectionChange (selection (propsUpdate sortFiles old nextProps st).1)]
       else []).
Proof.
  intros Hstatus.
  destruct (propsUpdate_selection sortFiles old nextProps st) as (-> & -> & ->).
  destruct (receiveProps_run old nextProps st) as (st1 & -> & Hsel & Hanchor & Hraw).
  rewrite Hstatus, cleanSelection_run. simpl.
  rewrite (status_cleaning_files_changed _ _ Hstatus) in Hraw.
  rewrite Hsel, Hanchor, Hraw.
  split; [|split; [|split; [done|split; [|split; [|done]]]]].
  - intros k. rewrite keepSelected_fold_selected. unfold selected at 1.
    rewrite lookup_empty. split; [by intros [?|?] | by right].
  - apply keepSelected_fold_values. intros k b. by rewrite lookup_empty.
  - intros c Hc. destruct (previousSelectionIndex st) as [p|]; simpl in Hc; [|done].
    by apply clampIndex_range in Hc.
  - intros ->. by destruct (previousSelectionIndex st).
Qed.

Lemma C5_cleaning_prunes_witness :
  selectionStatusOf demoProps afterRemoval = NeedsCleaning
  ∧ previousSelectionIndex
      (propsUpdate keepOrder demoProps afterRemoval
         (demoState {["a" := true; "b" := true]} (Some 2))).1
    = Some 2 ≫= (λ p, clampIndex p (files afterRemoval)).
Proof.
  split; [by vm_compute|].
  apply (C5_cleaning_prunes keepOrder demoProps afterRemoval
           (demoState {["a" := true; "b" := true]} (Some 2))).
  by vm_compute.
Defined.

(** The example of the specification: selection [{A, B}] over [A, B, C];
    the new list is [A, C]; cleaning yields [{A}], and the anchor 2 is
    clamped to the last index 1. *)
Example cleaning_after_removal :
  map_to_list (selection (propsUpdate keepOrder demoProps afterRemoval
                 (demoState {["a" := true; "b" := true]} (Some 2))).1)
  = [("a", true)]
  ∧ previousSelectionIndex (propsUpdate keepOrder demoProps afterRemoval
                 (demoState {["a" := true; "b" := true]} (Some 2))).1 = Some 1.
Proof. by vm_compute. Qed.

(** C6.  When a property update changes the identity of the terminal
    folder of the folder chain, the selection becomes empty, the anchor
    becomes undefined, and the whole update calls the selection-change
    callback exactly once, with the empty selection (the host having
    supplied the callback). *)
Theorem C6_reset_on_navigation sortFiles old nextProps st :
  strictEq (getNonNil (propFolderChain nextProps) (-1))
           (getNonNil (propFolderChain old) (-1)) = false →
  onSelectionChange nextProps = true →
  selection (propsUpdate sortFiles old nextProps st).1 = ∅
  ∧ previousSelectionIndex (propsUpdate sortFiles old nextProps st).1 = None
  ∧ (propsUpdate sortFiles old nextProps st).2 = [CallSelectionChange ∅].
Proof.
  intros Hterm Hcb.
  destruct (propsUpdate_selection sortFiles old nextProps st) as (-> & -> & ->).
  destruct (receiveProps_run old nextProps st) as (st1 & -> & _).
  assert (selectionStatusOf old nextProps = NeedsResetting) as ->.
  { unfold selectionStatusOf.
    destruct (shallowEqualArrays (propFolderChain nextProps) (propFolderChain old)) eqn:Heq.
    - apply (shallowEqualArrays_getNonNil _ _ (-1)) in Heq. congruence.
    - rewrite Hterm. cbn [negb andb orb]. rewrite orb_true_r.
      by destruct (_ && _). }
  unfold resetSelection. rewrite Hcb, run_when_call. done.
Qed.

Lemma C6_reset_on_navigation_witness :
  strictEq (getNonNil (propFolderChain (inFolder [Some Root; Some Pics])) (-1))
           (getNonNil (propFolderChain (inFolder [Some Root; Some Docs])) (-1)) = false
  ∧ onSelectionChange (inFolder [Some Root; Some Pics]) = true
  ∧ (propsUpdate keepOrder (inFolder [Some Root; Some Docs])
       (inFolder [Some Root; Some Pics]) twoSelected).2 = [CallSelectionChange ∅].
Proof.
  split; [by vm_compute|]. split; [done|].
  apply (C6_reset_on_navigation keepOrder (inFolder [Some Root; Some Docs])
           (inFolder [Some Root; Some Pics]) twoSelected); [by vm_compute | done].
Defined.

(** [componentDidUpdate] recomputes the sorted view whenever one of the
    four sort inputs differs between the previous and the current state. *)
Lemma componentDidUpdate_resorts sortFiles prevState state :
  ¬ Forall2 (λ x y, strictEq x y = true) (rawFiles state) (rawFiles prevState)
  ∨ options state ≠ options prevState
  ∨ sortProperty state ≠ sortProperty prevState
  ∨ sortOrder state ≠ sortOrder prevState →
  componentDidUpdate sortFiles prevState state =
  (set_sorted
     (sortFiles (rawFiles state) (options state) (sortProperty state) (sortOrder state)).1
     (sortFiles (rawFiles state) (options state) (sortProperty state) (sortOrder state)).2
     state, []).
Proof.
  intros Hchange. unfold componentDidUpdate.
  assert (needToResort prevState state = true) as ->.
  { unfold needToResort, shallowEqualObjects. simpl.
    rewrite !orb_true_iff, !negb_true_iff, !bool_decide_eq_false.
    rewrite <- not_true_iff_false, elementsStrictEq_Forall2. tauto. }
  by destruct (sortFiles _ _ _ _).
Qed.

(** C9.  Whenever the raw file list, the options, the sort property or
    the sort order of the state differ from those of the previous state,
    [componentDidUpdate] stores the sorted file list and the id-to-index
    map recomputed by the sort engine from the new inputs.  In particular
    an update cycle started by new props ends with the recomputed view
    whatever the selection status of the cycle, [Ok] included: the status
    is not an input of the decision. *)
Theorem C9_resort_on_change sortFiles prevState state old nextProps st :
  (¬ Forall2 (λ x y, strictEq x y = true) (rawFiles state) (rawFiles prevState)
   ∨ options state ≠ options prevState
   ∨ sortProperty state ≠ sortProperty prevState
   ∨ sortOrder state ≠ sortOrder prevState →
   componentDidUpdate sortFiles prevState state
   = (set_sorted
        (sortFiles (rawFiles state) (options state) (sortProperty state)
           (sortOrder state)).1
        (sortFiles (rawFiles state) (options state) (sortProperty state)
           (sortOrder state)).2
        state, []))
  ∧ (¬ Forall2 (λ x y, strictEq x y = true)
         (rawFiles (UNSAFE_componentWillReceiveProps old nextProps st).1) (rawFiles st)
     ∨ options (UNSAFE_componentWillReceiveProps old nextProps st).1 ≠ options st
     ∨ sortProperty (UNSAFE_componentWillReceiveProps old nextProps st).1 ≠ sortProperty st
     ∨ sortOrder (UNSAFE_componentWillReceiveProps old nextProps st).1 ≠ sortOrder st →
     (sortedFiles (propsUpdate sortFiles old nextProps st).1,
      fileIndexMap (propsUpdate sortFiles old nextProps st).1)
     = sortFiles (rawFiles (UNSAFE_componentWillReceiveProps old nextProps st).1)
         (options (UNSAFE_componentWillReceiveProps old nextProps st).1)
         (sortProperty (UNSAFE_componentWillReceiveProps old nextProps st).1)
         (sortOrder (UNSAFE_componentWillReceiveProps old nextProps st).1)).
Proof.
  split; [apply componentDidUpdate_resorts|].
  intros Hchange. unfold propsUpdate, andThen.
  destruct (UNSAFE_componentWillReceiveProps old nextProps st) as [st1 t1].
  simpl in Hchange. rewrite (componentDidUpdate_resorts _ _ _ Hchange). simpl.
  by destruct (sortFiles _ _ _ _).
Qed.

(** A cycle whose selection status is [Ok] (only the sort column
    changes) still re-sorts. *)
Lemma C9_resort_on_change_witness :
  selectionStatusOf demoProps sortedBySize = Ok
  ∧ sortProperty (UNSAFE_componentWillReceiveProps demoProps sortedBySize twoSelected).1
    ≠ sortProperty twoSelected
  ∧ (sortedFiles (propsUpdate keepOrder demoProps sortedBySize twoSelected).1,
     fileIndexMap (propsUpdate keepOrder demoProps sortedBySize twoSelected).1)
    = keepOrder (rawFiles (UNSAFE_componentWillReceiveProps demoProps sortedBySize twoSelected).1)
        (options (UNSAFE_componentWillReceiveProps demoProps sortedBySize twoSelected).1)
        (sortProperty (UNSAFE_componentWillReceiveProps demoProps sortedBySize twoSelected).1)
        (sortOrder (UNSAFE_componentWillReceiveProps demoProps sortedBySize twoSelected).1).
Proof.
  split; [by vm_compute|]. split; [by vm_compute|].
  apply (C9_resort_on_change keepOrder twoSelected twoSelected
           demoProps sortedBySize twoSelected).
  right. right. left. by vm_compute.
Defined.

(** ** Sort column *)

(** C10.  [activateSortProperty] with a property other than the current
    one selects it in ascending order; with the current property it keeps
    the property and flips the order, so that two consecutive calls bring
    the state back. *)
Theorem C10_activateSortProperty name st :
  (sortProperty st ≠ name →
   sortProperty (activateSortProperty name st).1 = name
   ∧ sortOrder (activateSortProperty name st).1 = Asc)
  ∧ (sortProperty st = name →
     sortProperty (activateSortProperty name st).1 = name
     ∧ (sortOrder st = Asc → sortOrder (activateSortProperty name st).1 = Desc)
     ∧ (sortOrder st = Desc → sortOrder (activateSortProperty name st).1 = Asc)
     ∧ (activateSortProperty name >> activateSortProperty name) st = (st, [])).
Proof.
  unfold activateSortProperty. split.
  - intros Hne. simpl. by rewrite bool_decide_eq_false_2.
  - intros <-. rewrite run_setState. unfold setState.
    destruct st as [? ? ? ? ? ? ? ? p o]. cbn [sortProperty sortOrder].
    rewrite (bool_decide_eq_true_2 (p = p)) by done. cbn [negb].
    unfold set_sort, set_sortOrder, set_sortProperty. cbn.
    rewrite (bool_decide_eq_true_2 (p = p)) by done. cbn [negb].
    destruct o; repeat split; done.
Qed.

Lemma C10_activateSortProperty_witness :
  sortProperty twoSelected = Name
  ∧ (activateSortProperty Name >> activateSortProperty Name) twoSelected = (twoSelected, []).
Proof.
  split; [done|].
  apply (C10_activateSortProperty Name twoSelected). done.
Defined.

(** ** The interaction dispatcher *)

(** The click event synthesised for a keyboard activation. *)
Lemma keyboard_click_is_multiple props file displayIndex st :
  (∀ handler, onFileSingleClick props = Some handler →
     handler file displayIndex {| ctrlKey := true; shiftKey := false |} true ≠ Some true) →
  handleFileSingleClick props file displayIndex
    {| ctrlKey := true; shiftKey := false |} true st
  = (when (isFunction (onFileSingleClick props))
       (call (CallFileSingleClick file displayIndex
                {| ctrlKey := true; shiftKey := false |} true)) >>
     handleSelectionToggle props file displayIndex Multiple) st.
Proof.
  intros Hnot. unfold handleFileSingleClick.
  destruct (onFileSingleClick props) as [h|]; simpl.
  - by rewrite (bool_decide_eq_false_2 _ (Hnot h eq_refl)).
  - by rewrite run_skip.
Qed.

Lemma handleKeyPress_activation instanceId props event elem st fileId displayIndex file :
  kbEventIsBackspace event = false →
  kbEventIsSpace event = true ∨ kbEventIsEnter event = true →
  data_chonky_instance_id elem = Some instanceId →
  data_chonky_file_id elem = Some fileId →
  fileIndexMap st !! fileId = Some displayIndex →
  array_get (sortedFiles st) displayIndex = Some file →
  handleKeyPress instanceId props event (Some elem) st
  = (call PreventDefault >>
     if kbEventIsSpace event
     then handleFileSingleClick props file displayIndex
            {| ctrlKey := true; shiftKey := false |} true
     else handleFileDoubleClick props file displayIndex
            {| ctrlKey := true; shiftKey := false |} true) st.
Proof.
  intros Hback Hkey Hinst Hfile Hidx Hget. unfold handleKeyPress.
  rewrite Hback. simpl. rewrite Hinst, Hfile, Hidx, Hget. simpl.
  rewrite bool_decide_eq_true_2 by done. simpl.
  assert ((displayIndex <? 0) = false) as ->.
  { unfold array_get in Hget. by destruct (displayIndex <? 0). }
  assert ((displayIndex >=? Z.of_nat (length (sortedFiles st))) = false) as ->.
  { unfold array_get in Hget. destruct (displayIndex <? 0) eqn:Hneg; [done|].
    apply Z.ltb_ge in Hneg.
    destruct (sortedFiles st !! Z.to_nat displayIndex) as [x|] eqn:Hl; [|done].
    apply lookup_lt_Some in Hl. rewrite Z.geb_leb. apply Z.leb_gt. lia. }
  simpl.
  destruct (kbEventIsSpace event), (kbEventIsEnter event); simpl; try done.
  by destruct Hkey.
Qed.

(** Whatever the key and the focus, a click callback called by the key
    handler receives the ctrl-click event and the keyboard flag. *)
Lemma handleKeyPress_click_events instanceId props event activeElem st e :
  e ∈ (handleKeyPress instanceId props event activeElem st).2 →
  match e with
  | CallFileSingleClick _ _ ev kb | CallFileDoubleClick _ _ ev kb =>
      ctrlKey ev = true ∧ shiftKey ev = false ∧ kb = true
  | _ => True
  end.
Proof.
  unfold handleKeyPress.
  destruct (negb _ && negb _ && negb _); [by intros ?%elem_of_nil|].
  rewrite run_call. cbn [snd]. intros [->|He]%elem_of_cons; [done|]. revert He.
  destruct (kbEventIsBackspace event).
  { destruct (getNonNil _ _) as [parent|]; [|by intros ?%elem_of_nil].
    destruct (bool_decide _); [by intros ?%elem_of_nil|].
    destruct (onFileOpen props); simpl; [|by intros ?%elem_of_nil].
    by intros ->%list_elem_of_singleton. }
  destruct (negb _ || negb _); [by intros ?%elem_of_nil|].
  destruct (activeElem ≫= data_chonky_file_id) as [fileId|]; [|by intros ?%elem_of_nil].
  destruct (fileIndexMap st !! fileId) as [i|]; [|by intros ?%elem_of_nil].
  destruct (_ || _); [by intros ?%elem_of_nil|].
  destruct (array_get _ _) as [file|]; [|by intros ?%elem_of_nil].
  destruct (kbEventIsSpace event); [|destruct (kbEventIsEnter event)].
  - unfold handleFileSingleClick. cbn [ctrlKey shiftKey].
    destruct (onFileSingleClick props) as [h|].
    + rewrite run_call. cbn [snd]. intros [->|He]%elem_of_cons; [done|]. revert He.
      destruct (bool_decide _); [by intros ?%elem_of_nil|].
      unfold handleSelectionToggle. destruct (bool_decide _); [by intros ?%elem_of_nil|].
      destruct (toggleSelection _ _ _ _) as [s a]. rewrite run_when_call. cbn [snd].
      destruct (onSelectionChange props); [|by intros ?%elem_of_nil].
      by intros ->%list_elem_of_singleton.
    + unfold handleSelectionToggle. destruct (bool_decide _); [by intros ?%elem_of_nil|].
      destruct (toggleSelection _ _ _ _) as [s a]. rewrite run_when_call. cbn [snd].
      destruct (onSelectionChange props); [|by intros ?%elem_of_nil].
      by intros ->%list_elem_of_singleton.
  - unfold handleFileDoubleClick.
    destruct (onFileDoubleClick props) as [h|].
    + rewrite run_call. cbn [snd]. intros [->|He]%elem_of_cons; [done|]. revert He.
      destruct (bool_decide _); [by intros ?%elem_of_nil|].
      destruct (_ && _); simpl; [|by intros ?%elem_of_nil].
      by intros ->%list_elem_of_singleton.
    + destruct (_ && _); simpl; [|by intros ?%elem_of_nil].
      by intros ->%list_elem_of_singleton.
  - by intros ?%elem_of_nil.
Qed.

(** C7.  A space or enter key on a focused file row of this instance is
    dispatched to the click handlers with the synthetic event
    [{ctrlKey: true, shiftKey: false}] and the keyboard flag; for the
    space key, unless the host's click callback asks to prevent the
    default, the state that results is that of a selection toggle in
    [Multiple] mode. *)
Theorem C7_keyboard_activation instanceId props event elem st fileId displayIndex file :
  kbEventIsBackspace event = false →
  kbEventIsSpace event = true ∨ kbEventIsEnter event = true →
  data_chonky_instance_id elem = Some instanceId →
  data_chonky_file_id elem = Some fileId →
  fileIndexMap st !! fileId = Some displayIndex →
  array_get (sortedFiles st) displayIndex = Some file →
  handleKeyPress instanceId props event (Some elem) st
  = (call PreventDefault >>
     if kbEventIsSpace event
     then handleFileSingleClick props file displayIndex
            {| ctrlKey := true; shiftKey := false |} true
     else handleFileDoubleClick props file displayIndex
            {| ctrlKey := true; shiftKey := false |} true) st
  ∧ (kbEventIsSpace event = true →
     (∀ handler, onFileSingleClick props = Some handler →
        handler file displayIndex {| ctrlKey := true; shiftKey := false |} true
        ≠ Some true) →
     (handleKeyPress instanceId props event (Some elem) st).1
     = (handleSelectionToggle props file displayIndex Multiple st).1).
Proof.
  intros Hback Hkey Hinst Hfile Hidx Hget.
  pose proof (handleKeyPress_activation instanceId props event elem st fileId
                displayIndex file Hback Hkey Hinst Hfile Hidx Hget) as Hrun.
  split; [done|]. intros Hspace Hnot. rewrite Hrun, Hspace, run_call. cbn [fst].
  rewrite keyboard_click_is_multiple by done.
  destruct (onFileSingleClick props); simpl; [by rewrite run_call | by rewrite run_skip].
Qed.

Lemma C7_keyboard_activation_witness :
  kbEventIsBackspace spaceKey = false
  ∧ (kbEventIsSpace spaceKey = true ∨ kbEventIsEnter spaceKey = true)
  ∧ data_chonky_instance_id (rowOf notes) = Some "chonky-1"
  ∧ data_chonky_file_id (rowOf notes) = Some "c"
  ∧ fileIndexMap twoSelected !! "c" = Some 2
  ∧ array_get (sortedFiles twoSelected) 2 = Some notes
  ∧ handleKeyPress "chonky-1" demoProps spaceKey (Some (rowOf notes)) twoSelected
    = (call PreventDefault >>
       if kbEventIsSpace spaceKey
       then handleFileSingleClick demoProps notes 2
              {| ctrlKey := true; shiftKey := false |} true
       else handleFileDoubleClick demoProps notes 2
              {| ctrlKey := true; shiftKey := false |} true) twoSelected.
Proof.
  split; [done|]. split; [by left|]. split; [done|]. split; [done|].
  split; [by vm_compute|]. split; [done|].
  apply (C7_keyboard_activation "chonky-1" demoProps spaceKey (rowOf notes)
           twoSelected "c" 2 notes); first [done | by left | by vm_compute].
Defined.

(** C8.  On a backspace key the handler looks at the second-to-last
    element of the folder chain.  If it is non-null and not marked
    [openable: false], [onFileOpen] (supplied by the host) is called with
    it; if there is no such folder, or it is not openable, nothing happens
    beyond [event.preventDefault()]: no callback, no state change. *)
Theorem C8_backspace instanceId props event activeElem st :
  kbEventIsBackspace event = true →
  (∀ parent, getNonNil (propFolderChain props) (-2) = Some parent →
     openable parent ≠ Some false → onFileOpen props = true →
     handleKeyPress instanceId props event activeElem st
     = (st, [PreventDefault; CallFileOpen parent]))
  ∧ (getNonNil (propFolderChain props) (-2) = None →
     handleKeyPress instanceId props event activeElem st = (st, [PreventDefault]))
  ∧ (∀ parent, getNonNil (propFolderChain props) (-2) = Some parent →
     openable parent = Some false →
     handleKeyPress instanceId props event activeElem st = (st, [PreventDefault])).
Proof.
  intros Hback. unfold handleKeyPress. rewrite Hback. cbn [negb andb].
  rewrite run_call. split; [|split].
  - intros parent -> Hopen ->. by rewrite bool_decide_eq_false_2.
  - by intros ->.
  - intros parent -> Hopen. by rewrite bool_decide_eq_true_2.
Qed.

Lemma C8_backspace_witness :
  kbEventIsBackspace backspaceKey = true
  ∧ handleKeyPress "chonky-1" (inFolder [Some Root; Some Docs]) backspaceKey None twoSelected
    = (twoSelected, [PreventDefault; CallFileOpen Root])
  ∧ handleKeyPress "chonky-1" (inFolder [Some Root]) backspaceKey None twoSelected
    = (twoSelected, [PreventDefault]).
Proof.
  split; [done|]. split.
  - apply (C8_backspace "chonky-1" (inFolder [Some Root; Some Docs]) backspaceKey
             None twoSelected); done.
  - apply (C8_backspace "chonky-1" (inFolder [Some Root]) backspaceKey
             None twoSelected); done.
Defined.

(** * Further properties of the component *)

(** ** Reference equality *)

Lemma strictEq_refl a : strictEq a a = true.
Proof. destruct a; simpl; [by rewrite bool_decide_eq_true_2 | done]. Qed.

Lemma strictEq_sym a b : strictEq a b = true → strictEq b a = true.
Proof.
  destruct a, b; simpl; try done.
  rewrite !bool_decide_eq_true. congruence.
Qed.

Lemma strictEq_trans a b c :
  strictEq a b = true → strictEq b c = true → strictEq a c = true.
Proof.
  destruct a, b, c; simpl; try done.
  rewrite !bool_decide_eq_true. congruence.
Qed.

Lemma elementsStrictEq_refl a : elementsStrictEq a a = true.
Proof. induction a as [|x a IH]; simpl; [done|]. by rewrite strictEq_refl. Qed.

Lemma elementsStrictEq_sym a b :
  elementsStrictEq a b = true → elementsStrictEq b a = true.
Proof.
  revert b. induction a as [|x a IH]; intros [|y b]; simpl; try done.
  intros [H1 H2]%andb_true_iff. by rewrite (strictEq_sym _ _ H1), (IH _ H2).
Qed.

Lemma elementsStrictEq_trans a b c :
  elementsStrictEq a b = true → elementsStrictEq b c = true →
  elementsStrictEq a c = true.
Proof.
  revert b c. induction a as [|x a IH]; intros [|y b] [|z c]; simpl; try done.
  intros [H1 H2]%andb_true_iff [H3 H4]%andb_true_iff.
  by rewrite (strictEq_trans _ _ _ H1 H3), (IH _ _ H2 H4).
Qed.

(** Two selections with the same members, all mapped to [true], are the
    same object content. *)
Lemma selection_ext (s1 s2 : gmap string bool) :
  (∀ k b, s1 !! k = Some b → b = true) →
  (∀ k b, s2 !! k = Some b → b = true) →
  (∀ k, selected s1 k ↔ selected s2 k) → s1 = s2.
Proof.
  intros H1 H2 Hiff. apply map_eq. intros k. unfold selected in Hiff.
  destruct (s1 !! k) as [b1|] eqn:E1, (s2 !! k) as [b2|] eqn:E2; try done.
  - by rewrite (H1 _ _ E1), (H2 _ _ E2).
  - rewrite (H1 _ _ E1) in E1. apply Hiff in E1. congruence.
  - rewrite (H2 _ _ E2) in E2. apply Hiff in E2. congruence.
Qed.

(** ** More on the selection engine *)

(** A [Range] toggle with no anchor recorded is a [Multiple] toggle. *)
Theorem range_without_anchor_is_multiple props file displayIndex st :
  previousSelectionIndex st = None →
  handleSelectionToggle props file displayIndex Range st
  = handleSelectionToggle props file displayIndex Multiple st.
Proof.
  intros Hnone. unfold handleSelectionToggle.
  destruct (bool_decide (disableSelection props = Some true)); [done|].
  unfold toggleSelection. by rewrite Hnone.
Qed.

Lemma range_without_anchor_is_multiple_witness :
  previousSelectionIndex twoSelected = None
  ∧ handleSelectionToggle demoProps report 0 Range twoSelected
    = handleSelectionToggle demoProps report 0 Multiple twoSelected.
Proof.
  split; [done|].
  apply (range_without_anchor_is_multiple demoProps report 0 twoSelected). done.
Defined.

(** A [Single] toggle on a selectable file that is not in the selection,
    and whose id is not the name of a member of [Object.prototype], makes
    it the only selected file and moves the anchor onto it. *)
Theorem single_select_replaces props file displayIndex st :
  disableSelection props ≠ Some true →
  selection st !! id file = None →
  selectable file ≠ Some false →
  isPrototypeKey (id file) = false →
  selection (handleSelectionToggle props file displayIndex Single st).1
  = {[id file := true]}
  ∧ previousSelectionIndex (handleSelectionToggle props file displayIndex Single st).1
    = Some displayIndex.
Proof.
  intros Hen Hnone Hsel _. rewrite handleSelectionToggle_enabled by done.
  unfold toggleSelection. simpl. rewrite Hnone. simpl.
  apply canBeSelected_true in Hsel. by rewrite Hsel.
Qed.

Lemma single_select_replaces_witness :
  disableSelection demoProps ≠ Some true
  ∧ selection anchoredAtTop !! id report = None
  ∧ selectable report ≠ Some false
  ∧ isPrototypeKey (id report) = false
  ∧ selection (handleSelectionToggle demoProps report 0 Single anchoredAtTop).1
    = {[id report := true]}.
Proof.
  split; [done|]. split; [by vm_compute|]. split; [done|]. split; [done|].
  apply (single_select_replaces demoProps report 0 anchoredAtTop);
    [done | by vm_compute | done | done].
Defined.

(** A [Single] toggle on a file marked [selectable: false] does not select
    it, and still drops everything that was selected. *)
Theorem single_on_unselectable_clears props file displayIndex st :
  disableSelection props ≠ Some true →
  selectable file = Some false →
  selection (handleSelectionToggle props file displayIndex Single st).1 = ∅.
Proof.
  intros Hen Hsel. rewrite handleSelectionToggle_enabled by done.
  unfold toggleSelection, canBeSelected. simpl.
  rewrite Hsel, bool_decide_eq_true_2 by done. simpl. by rewrite andb_false_r.
Qed.

Lemma single_on_unselectable_clears_witness :
  disableSelection demoProps ≠ Some true
  ∧ selectable locked = Some false
  ∧ selection (handleSelectionToggle demoProps locked 1 Single twoSelected).1 = ∅.
Proof.
  split; [done|]. split; [done|].
  apply (single_on_unselectable_clears demoProps locked 1 twoSelected); done.
Defined.

(** A toggle reports to the host exactly the selection it stores, once,
    and touches nothing but the selection and the anchor. *)
Theorem toggle_reports_stored_selection props file displayIndex type st :
  disableSelection props ≠ Some true →
  onSelectionChange props = true →
  (handleSelectionToggle props file displayIndex type st).2
  = [CallSelectionChange
       (selection (handleSelectionToggle props file displayIndex type st).1)]
  ∧ set_selection (selection st) (previousSelectionIndex st)
      (handleSelectionToggle props file displayIndex type st).1 = st.
Proof.
  intros Hen Hcb. rewrite handleSelectionToggle_enabled by done.
  rewrite Hcb. split; [done|]. by destruct st.
Qed.

Lemma toggle_reports_stored_selection_witness :
  disableSelection demoProps ≠ Some true
  ∧ onSelectionChange demoProps = true
  ∧ (handleSelectionToggle demoProps notes 2 Multiple emptyAnchored).2
    = [CallSelectionChange
         (selection (handleSelectionToggle demoProps notes 2 Multiple emptyAnchored).1)].
Proof.
  split; [done|]. split; [done|].
  apply (toggle_reports_stored_selection demoProps notes 2 Multiple emptyAnchored); done.
Defined.

Lemma toggleSelection_Multiple file displayIndex st :
  (toggleSelection file displayIndex Multiple st).1
  = if bool_decide (selection st !! id file = Some true)
    then delete (id file) (selection st)
    else <[id file := true]> (selection st).
Proof. done. Qed.

(** Two [Multiple] toggles in a row on the same file give back the
    selection there was (the file being either absent from the selection
    object or mapped to [true]). *)
Theorem multiple_twice_restores props file i j st :
  disableSelection props ≠ Some true →
  selection st !! id file = None ∨ selection st !! id file = Some true →
  selection (handleSelectionToggle props file j Multiple
               (handleSelectionToggle props file i Multiple st).1).1
  = selection st.
Proof.
  intros Hen Hold. rewrite !handleSelectionToggle_enabled by done.
  cbn [fst]. rewrite !toggleSelection_Multiple. cbn [selection set_selection].
  rewrite ?toggleSelection_Multiple.
  destruct Hold as [Hold|Hold]; rewrite Hold.
  - rewrite (bool_decide_eq_false_2 (None = Some true)) by done.
    rewrite lookup_insert_eq.
    rewrite (bool_decide_eq_true_2 (Some true = Some true)) by done.
    rewrite delete_insert_eq. by apply delete_id.
  - rewrite (bool_decide_eq_true_2 (Some true = Some true)) by done.
    rewrite lookup_delete_eq.
    rewrite (bool_decide_eq_false_2 (None = Some true)) by done.
    rewrite insert_delete_eq. by apply insert_id.
Qed.

Lemma multiple_twice_restores_witness :
  disableSelection demoProps ≠ Some true
  ∧ (selection twoSelected !! id notes = None
     ∨ selection twoSelected !! id notes = Some true)
  ∧ selection (handleSelectionToggle demoProps notes 2 Multiple
                 (handleSelectionToggle demoProps notes 2 Multiple twoSelected).1).1
    = selection twoSelected.
Proof.
  split; [done|]. split; [right; by vm_compute|].
  apply (multiple_twice_restores demoProps notes 2 2 twoSelected);
    [done | right; by vm_compute].
Defined.

(** The [Range] case with a valid anchor, in closed form. *)
Lemma toggleSelection_Range file displayIndex st a :
  previousSelectionIndex st = Some a →
  0 ≤ a < Z.of_nat (length (sortedFiles st)) →
  toggleSelection file displayIndex Range st
  = (selectRange (Z.to_nat (Z.max a displayIndex + 1 - Z.min a displayIndex))
       (Z.min a displayIndex) (sortedFiles st) ∅, a).
Proof.
  intros Hprev Ha. unfold toggleSelection.
  rewrite Hprev, (clampIndex_in_bounds _ _ Ha). simpl.
  destruct (a >? displayIndex) eqn:Hcmp; simpl.
  - apply Z.gtb_lt in Hcmp. by rewrite Z.min_r, Z.max_l by lia.
  - rewrite Z.gtb_ltb in Hcmp. apply Z.ltb_ge in Hcmp.
    by rewrite Z.min_l, Z.max_r by lia.
Qed.

(** Successive [Range] toggles do not accumulate: with a valid anchor, a
    [Range] toggle after another [Range] toggle gives the state and the
    notification that it gives when applied directly. *)
Theorem range_toggles_do_not_accumulate props file1 i1 file2 i2 st a :
  disableSelection props ≠ Some true →
  previousSelectionIndex st = Some a →
  0 ≤ a < Z.of_nat (length (sortedFiles st)) →
  handleSelectionToggle props file2 i2 Range
    (handleSelectionToggle props file1 i1 Range st).1
  = handleSelectionToggle props file2 i2 Range st.
Proof.
  intros Hen Hprev Ha. rewrite !handleSelectionToggle_enabled by done.
  rewrite (toggleSelection_Range file1 i1 st a) by done. cbn [fst snd].
  rewrite (toggleSelection_Range file2 i2 (set_selection _ _ st) a) by done.
  rewrite (toggleSelection_Range file2 i2 st a) by done. done.
Qed.

Lemma range_toggles_do_not_accumulate_witness :
  disableSelection demoProps ≠ Some true
  ∧ previousSelectionIndex anchoredAtTop = Some 0
  ∧ 0 ≤ 0 < Z.of_nat (length (sortedFiles anchoredAtTop))
  ∧ handleSelectionToggle demoProps locked 1 Range
      (handleSelectionToggle demoProps notes 2 Range anchoredAtTop).1
    = handleSelectionToggle demoProps locked 1 Range anchoredAtTop.
Proof.
  split; [done|]. split; [done|]. split; [simpl; lia|].
  apply (range_toggles_do_not_accumulate demoProps notes 2 locked 1 anchoredAtTop 0);
    [done | done | simpl; lia].
Defined.

(** A range is the same from either end: anchor [a] with target [b]
    selects what anchor [b] with target [a] selects. *)
Theorem range_is_symmetric props file1 file2 st1 st2 a b :
  disableSelection props ≠ Some true →
  sortedFiles st1 = sortedFiles st2 →
  previousSelectionIndex st1 = Some a →
  previousSelectionIndex st2 = Some b →
  0 ≤ a < Z.of_nat (length (sortedFiles st1)) →
  0 ≤ b < Z.of_nat (length (sortedFiles st1)) →
  selection (handleSelectionToggle props file1 b Range st1).1
  = selection (handleSelectionToggle props file2 a Range st2).1.
Proof.
  intros Hen Hsorted Ha Hb Hina Hinb. rewrite !handleSelectionToggle_enabled by done.
  rewrite (toggleSelection_Range file1 b st1 a) by done.
  rewrite (toggleSelection_Range file2 a st2 b) by (by rewrite <- ?Hsorted).
  cbn [fst selection set_selection].
  by rewrite Hsorted, (Z.max_comm a b), (Z.min_comm a b).
Qed.

Lemma range_is_symmetric_witness :
  disableSelection demoProps ≠ Some true
  ∧ sortedFiles (demoState ∅ (Some 0)) = sortedFiles (demoState ∅ (Some 2))
  ∧ previousSelectionIndex (demoState ∅ (Some 0)) = Some 0
  ∧ previousSelectionIndex (demoState ∅ (Some 2)) = Some 2
  ∧ 0 ≤ 0 < Z.of_nat (length (sortedFiles (demoState ∅ (Some 0))))
  ∧ 0 ≤ 2 < Z.of_nat (length (sortedFiles (demoState ∅ (Some 0))))
  ∧ selection (handleSelectionToggle demoProps notes 2 Range (demoState ∅ (Some 0))).1
    = selection (handleSelectionToggle demoProps report 0 Range (demoState ∅ (Some 2))).1.
Proof.
  split; [done|]. split; [done|]. split; [done|]. split; [done|].
  split; [simpl; lia|]. split; [simpl; lia|].
  apply (range_is_symmetric demoProps notes report (demoState ∅ (Some 0))
           (demoState ∅ (Some 2)) 0 2); [done | done | done | done | simpl; lia ..].
Defined.

(** After a toggle on a row of the sorted view the anchor is an index of
    the sorted view, whatever it was before. *)
Theorem toggle_keeps_anchor_in_bounds props file displayIndex type st :
  disableSelection props ≠ Some true →
  0 ≤ displayIndex < Z.of_nat (length (sortedFiles st)) →
  anchorInBounds (handleSelectionToggle props file displayIndex type st).1.
Proof.
  intros Hen Hi. rewrite handleSelectionToggle_enabled by done.
  intros c. cbn [fst previousSelectionIndex sortedFiles set_selection].
  intros [= <-]. unfold toggleSelection. cbn [snd].
  destruct (previousSelectionIndex st) as [p|]; [|by destruct type].
  destruct (clampIndex p (sortedFiles st)) as [q|] eqn:Hq; [|by destruct type].
  apply clampIndex_range in Hq. by destruct type.
Qed.

Lemma toggle_keeps_anchor_in_bounds_witness :
  disableSelection demoProps ≠ Some true
  ∧ 0 ≤ 1 < Z.of_nat (length (sortedFiles (demoState ∅ (Some 17))))
  ∧ anchorInBounds
      (handleSelectionToggle demoProps locked 1 Range (demoState ∅ (Some 17))).1.
Proof.
  split; [done|]. split; [simpl; lia|].
  apply (toggle_keeps_anchor_in_bounds demoProps locked 1 Range (demoState ∅ (Some 17)));
    [done | simpl; lia].
Defined.

(** The selection invariant is kept by every toggle on a row of the
    sorted view, except for the [Multiple] treatment of a target marked
    [selectable: false]: it is kept when the mode is [Single] or the
    target is selectable. *)
Theorem toggle_preserves_selectionValid props file displayIndex type st :
  array_get (sortedFiles st) displayIndex = Some file →
  type = Single ∨ selectable file ≠ Some false →
  selectionValid st →
  selectionValid (handleSelectionToggle props file displayIndex type st).1.
Proof.
  intros Hget Hok Hvalid.
  destruct (decide (disableSelection props = Some true)) as [Hdis|Hen].
  { by rewrite handleSelectionToggle_disabled. }
  rewrite handleSelectionToggle_enabled by done.
  intros k. cbn [fst selection sortedFiles set_selection].
  assert (Hmultiple : selectable file ≠ Some false →
    selected (toggleSelection file displayIndex Multiple st).1 k →
    ∃ j f, array_get (sortedFiles st) j = Some f ∧ id f = k
           ∧ selectable f ≠ Some false).
  { intros Hsel. rewrite toggleSelection_Multiple. unfold selected.
    destruct (decide (id file = k)) as [<-|Hne].
    - intros _. by exists displayIndex, file.
    - case_bool_decide.
      + rewrite lookup_delete_ne by done. apply Hvalid.
      + rewrite lookup_insert_ne by done. apply Hvalid. }
  destruct type.
  - intros [-> Hsel]%toggle_single_selects_selectable. by exists displayIndex, file.
  - destruct Hok as [|Hsel]; [done|]. by apply Hmultiple.
  - destruct Hok as [|Hsel]; [done|].
    destruct (previousSelectionIndex st) as [p|] eqn:Hp.
    + destruct (clampIndex p (sortedFiles st)) as [q|] eqn:Hq.
      * unfold toggleSelection. rewrite Hp, Hq. simpl.
        destruct (q >? displayIndex); simpl;
          rewrite selectRange_selected; unfold selected; rewrite lookup_empty;
          (intros [?|(j & f & _ & Hj & Hs%canBeSelected_true & Hid)]; [done|]);
          by exists j, f.
      * intros Hk. apply Hmultiple; [done|].
        unfold toggleSelection in *. by rewrite Hp, Hq in *.
    + intros Hk. apply Hmultiple; [done|].
      unfold toggleSelection in *. by rewrite Hp in *.
Qed.

Lemma toggle_preserves_selectionValid_witness :
  array_get (sortedFiles emptyAnchored) 2 = Some notes
  ∧ (Multiple = Single ∨ selectable notes ≠ Some false)
  ∧ selectionValid (handleSelectionToggle demoProps notes 2 Multiple emptyAnchored).1.
Proof.
  split; [done|]. split; [by right|].
  apply (toggle_preserves_selectionValid demoProps notes 2 Multiple emptyAnchored);
    [done | by right |].
  intros k Hk. unfold selected, emptyAnchored, demoState in Hk.
  cbn [selection] in Hk. by rewrite lookup_empty in Hk.
Defined.

(** ** More on the reconciliation controller *)

(** The last step of receiving props (reset, cleaning or nothing) only
    writes the selection and the anchor. *)
Lemma reconcile_frame status cb st :
  set_selection (selection st) (previousSelectionIndex st)
    (match status with
     | NeedsResetting => resetSelection cb
     | NeedsCleaning => cleanSelection cb
     | Ok => skip
     end st).1 = st.
Proof.
  destruct status.
  - by destruct st.
  - rewrite cleanSelection_run. by destruct st.
  - unfold resetSelection. rewrite run_when_call. by destruct st.
Qed.

(** What receiving props does to the fields other than the selection and
    the anchor. *)
Lemma receiveProps_fields old nextProps st :
  rawFiles (UNSAFE_componentWillReceiveProps old nextProps st).1
  = (if shallowEqualArrays (Some (files nextProps)) (Some (files old))
     then rawFiles st else files nextProps)
  ∧ folderChain (UNSAFE_componentWillReceiveProps old nextProps st).1
    = (if shallowEqualArrays (propFolderChain nextProps) (propFolderChain old)
       then folderChain st else propFolderChain nextProps)
  ∧ options (UNSAFE_componentWillReceiveProps old nextProps st).1
    = match propOptions nextProps with
      | Some (_, o) =>
          if sameOptionsObject (propOptions nextProps) (propOptions old)
          then options st else o ∪ options st
      | None => options st
      end
  ∧ sortProperty (UNSAFE_componentWillReceiveProps old nextProps st).1
    = match propSortProperty nextProps with
      | Some p => if bool_decide (Some p = propSortProperty old)
                  then sortProperty st else p
      | None => sortProperty st
      end
  ∧ sortOrder (UNSAFE_componentWillReceiveProps old nextProps st).1
    = match propSortOrder nextProps with
      | Some o => if bool_decide (Some o = propSortOrder old)
                  then sortOrder st else o
      | None => sortOrder st
      end
  ∧ sortedFiles (UNSAFE_componentWillReceiveProps old nextProps st).1 = sortedFiles st
  ∧ fileIndexMap (UNSAFE_componentWillReceiveProps old nextProps st).1 = fileIndexMap st.
Proof.
  unfold UNSAFE_componentWillReceiveProps.
  generalize (selectionStatusOf old nextProps) as status. intros status.
  rewrite !run_when_setState.
  destruct (propView nextProps) as [v|];
    [rewrite run_when_setState | rewrite run_skip];
  (destruct (propOptions nextProps) as [[r o]|];
    [rewrite run_when_setState | rewrite run_skip]);
  (destruct (propSortProperty nextProps) as [p|];
    [rewrite run_when_setState | rewrite run_skip]);
  (destruct (propSortOrder nextProps) as [q|];
    [rewrite run_when_setState | rewrite run_skip]);
  match goal with
  | |- context [(match status with
                 | Ok => _ | NeedsCleaning => _ | NeedsResetting => _ end ?s).1] =>
      pose proof (reconcile_frame status (onSelectionChange nextProps) s) as Hframe;
      destruct (match status with
                | Ok => skip
                | NeedsCleaning => cleanSelection (onSelectionChange nextProps)
                | NeedsResetting => resetSelection (onSelectionChange nextProps)
                end s) as [st2 t2]
  end;
  cbn [fst] in *;
  destruct (shallowEqualArrays (Some (files nextProps)) (Some (files old)));
  destruct (shallowEqualArrays (propFolderChain nextProps) (propFolderChain old));
  cbn [negb] in Hframe;
  repeat match goal with
         | H : context [negb ?c] |- _ => destruct c; cbn [negb] in H
         end;
  destruct st2, st;
  unfold set_selection, set_sortOrder, set_sortProperty, set_options, set_view,
    set_folderChain, set_rawFiles in Hframe;
  cbn in Hframe; injection Hframe as ? ? ? ? ? ? ? ?; subst; done.
Qed.

Lemma propsUpdate_fields sortFiles old nextProps st :
  rawFiles (propsUpdate sortFiles old nextProps st).1
  = rawFiles (UNSAFE_componentWillReceiveProps old nextProps st).1
  ∧ folderChain (propsUpdate sortFiles old nextProps st).1
    = folderChain (UNSAFE_componentWillReceiveProps old nextProps st).1
  ∧ options (propsUpdate sortFiles old nextProps st).1
    = options (UNSAFE_componentWillReceiveProps old nextProps st).1
  ∧ sortProperty (propsUpdate sortFiles old nextProps st).1
    = sortProperty (UNSAFE_componentWillReceiveProps old nextProps st).1
  ∧ sortOrder (propsUpdate sortFiles old nextProps st).1
    = sortOrder (UNSAFE_componentWillReceiveProps old nextProps st).1.
Proof.
  unfold propsUpdate, andThen.
  destruct (UNSAFE_componentWillReceiveProps old nextProps st) as [st1 t1].
  unfold componentDidUpdate. destruct (needToResort st st1); [|done].
  by destruct (sortFiles _ _ _ _).
Qed.

(** An update whose selection status is [Ok] leaves the selection and the
    anchor as they are and does not call the host. *)
Theorem status_ok_keeps_selection sortFiles old nextProps st :
  selectionStatusOf old nextProps = Ok →
  selection (propsUpdate sortFiles old nextProps st).1 = selection st
  ∧ previousSelectionIndex (propsUpdate sortFiles old nextProps st).1
    = previousSelectionIndex st
  ∧ (propsUpdate sortFiles old nextProps st).2 = [].
Proof.
  intros Hok.
  destruct (propsUpdate_selection sortFiles old nextProps st) as (-> & -> & ->).
  destruct (receiveProps_run old nextProps st) as (st1 & -> & Hsel & Hanchor & _).
  by rewrite Hok.
Qed.

Lemma status_ok_keeps_selection_witness :
  selectionStatusOf demoProps sortedBySize = Ok
  ∧ selection (propsUpdate keepOrder demoProps sortedBySize twoSelected).1
    = selection twoSelected.
Proof.
  split; [by vm_compute|].
  apply (status_ok_keeps_selection keepOrder demoProps sortedBySize twoSelected).
  by vm_compute.
Defined.

(** When the host switches selection off ([disableSelection] becomes
    [true]), the selection is emptied and the anchor forgotten, whatever
    else the update carries; the host is told once if it listens. *)
Theorem disabling_selection_resets sortFiles old nextProps st :
  disableSelection nextProps = Some true →
  disableSelection old ≠ Some true →
  selection (propsUpdate sortFiles old nextProps st).1 = ∅
  ∧ previousSelectionIndex (propsUpdate sortFiles old nextProps st).1 = None
  ∧ (propsUpdate sortFiles old nextProps st).2
    = (if onSelectionChange nextProps then [CallSelectionChange ∅] else []).
Proof.
  intros Hnew Hold.
  destruct (propsUpdate_selection sortFiles old nextProps st) as (-> & -> & ->).
  destruct (receiveProps_run old nextProps st) as (st1 & -> & _).
  assert (selectionStatusOf old nextProps = NeedsResetting) as ->.
  { unfold selectionStatusOf. rewrite Hnew.
    rewrite (bool_decide_eq_true_2 (Some true = Some true)) by done.
    rewrite (bool_decide_eq_false_2 (Some true = disableSelection old)) by congruence.
    done. }
  unfold resetSelection. by rewrite run_when_call.
Qed.

Lemma disabling_selection_resets_witness :
  disableSelection selectionOff = Some true
  ∧ disableSelection demoProps ≠ Some true
  ∧ selection (propsUpdate keepOrder demoProps selectionOff twoSelected).1 = ∅.
Proof.
  split; [done|]. split; [done|].
  apply (disabling_selection_resets keepOrder demoProps selectionOff twoSelected); done.
Defined.

(** The state mirrors the props: if the raw file list and the folder
    chain of the state hold the references of the old props, after the
    update they hold those of the new props. *)
Theorem state_mirrors_props sortFiles old nextProps st :
  shallowEqualArrays (Some (rawFiles st)) (Some (files old)) = true →
  shallowEqualArrays (folderChain st) (propFolderChain old) = true →
  shallowEqualArrays (Some (rawFiles (propsUpdate sortFiles old nextProps st).1))
    (Some (files nextProps)) = true
  ∧ shallowEqualArrays (folderChain (propsUpdate sortFiles old nextProps st).1)
      (propFolderChain nextProps) = true.
Proof.
  intros Hraw Hchain.
  destruct (propsUpdate_fields sortFiles old nextProps st) as (-> & -> & _).
  destruct (receiveProps_fields old nextProps st) as (-> & -> & _).
  split.
  - destruct (shallowEqualArrays (Some (files nextProps)) (Some (files old))) eqn:Heq;
      simpl in *; [|apply elementsStrictEq_refl].
    eapply elementsStrictEq_trans; [done|]. by apply elementsStrictEq_sym.
  - destruct (shallowEqualArrays (propFolderChain nextProps) (propFolderChain old))
      eqn:Heq.
    + destruct (folderChain st), (propFolderChain old), (propFolderChain nextProps);
        simpl in *; try done.
      eapply elementsStrictEq_trans; [done|]. by apply elementsStrictEq_sym.
    + destruct (propFolderChain nextProps); simpl; [apply elementsStrictEq_refl | done].
Qed.

Lemma state_mirrors_props_witness :
  shallowEqualArrays (Some (rawFiles twoSelected)) (Some (files demoProps)) = true
  ∧ shallowEqualArrays (folderChain twoSelected) (propFolderChain demoProps) = true
  ∧ shallowEqualArrays
      (Some (rawFiles (propsUpdate keepOrder demoProps afterRemoval twoSelected).1))
      (Some (files afterRemoval)) = true.
Proof.
  split; [by vm_compute|]. split; [done|].
  apply (state_mirrors_props keepOrder demoProps afterRemoval twoSelected);
    [by vm_compute | done].
Defined.

(** A new [options] object from the host overrides the state's options
    key by key: a key it carries takes its value, a key it leaves out
    keeps the state's value.  The same object passed again changes
    nothing, so an option changed through [setOption] survives. *)
Theorem options_prop_overrides_keywise sortFiles old nextProps st r o :
  propOptions nextProps = Some (r, o) →
  (sameOptionsObject (propOptions nextProps) (propOptions old) = false →
   ∀ k, options (propsUpdate sortFiles old nextProps st).1 !! k
        = match o !! k with Some b => Some b | None => options st !! k end)
  ∧ (sameOptionsObject (propOptions nextProps) (propOptions old) = true →
     options (propsUpdate sortFiles old nextProps st).1 = options st).
Proof.
  intros Hopt.
  destruct (propsUpdate_fields sortFiles old nextProps st) as (_ & _ & -> & _).
  destruct (receiveProps_fields old nextProps st) as (_ & _ & -> & _).
  rewrite Hopt. split; intros ->; [|done].
  intros k. rewrite lookup_union. by destruct (o !! k), (options st !! k).
Qed.

Lemma options_prop_overrides_keywise_witness :
  propOptions hidingHidden = Some (7%positive, <[ShowHidden := false]> ∅)
  ∧ sameOptionsObject (propOptions hidingHidden) (propOptions demoProps) = false
  ∧ ∀ k, options (propsUpdate keepOrder demoProps hidingHidden
                    (constructor keepOrder demoProps)).1 !! k
         = match (<[ShowHidden := false]> ∅ : gmap Option bool) !! k with
           | Some b => Some b
           | None => options (constructor keepOrder demoProps) !! k
           end.
Proof.
  split; [done|]. split; [done|].
  apply (options_prop_overrides_keywise keepOrder demoProps hidingHidden
           (constructor keepOrder demoProps) 7%positive (<[ShowHidden := false]> ∅));
    done.
Defined.

Lemma cleaned_values st :
  ∀ k b, foldl (keepSelected (selection st)) ∅ (rawFiles st) !! k = Some b → b = true.
Proof. apply keepSelected_fold_values. intros k b. by rewrite lookup_empty. Qed.

(** Cleaning is the identity on a selection that needs none: if every
    entry of the selection is [true] and belongs to a file of the raw list
    that is not marked [selectable: false], the cleaned selection is the
    selection. *)
Theorem cleaning_keeps_valid_selection cb st :
  (∀ k b, selection st !! k = Some b →
     b = true ∧ ∃ f, Some f ∈ rawFiles st ∧ id f = k ∧ selectable f ≠ Some false) →
  selection (cleanSelection cb st).1 = selection st.
Proof.
  intros Hvalid. rewrite cleanSelection_run. cbn [fst selection set_selection].
  apply selection_ext.
  - apply cleaned_values.
  - intros k b Hk. by destruct (Hvalid k b Hk).
  - intros k. rewrite keepSelected_fold_selected. unfold selected at 1.
    rewrite lookup_empty. split.
    + by intros [?|[? _]].
    + intros Hk. right. split; [done|]. by destruct (Hvalid k true Hk).
Qed.

Lemma cleaning_keeps_valid_selection_witness :
  (∀ k b, selection twoSelected !! k = Some b →
     b = true ∧ ∃ f, Some f ∈ rawFiles twoSelected ∧ id f = k
                     ∧ selectable f ≠ Some false)
  ∧ selection (cleanSelection true twoSelected).1 = selection twoSelected.
Proof.
  assert (Hvalid : ∀ k b, selection twoSelected !! k = Some b →
     b = true ∧ ∃ f, Some f ∈ rawFiles twoSelected ∧ id f = k
                     ∧ selectable f ≠ Some false).
  { intros k b. unfold twoSelected, demoState. cbn [selection rawFiles].
    destruct (decide (k = "a")) as [->|Ha].
    - rewrite lookup_insert_eq. intros [= <-]. split; [done|].
      exists report. split; [|done]. unfold demoFiles. set_solver.
    - rewrite lookup_insert_ne by done.
      destruct (decide (k = "c")) as [->|Hc].
      + rewrite lookup_singleton_eq. intros [= <-]. split; [done|].
        exists notes. split; [|done]. unfold demoFiles. set_solver.
      + by rewrite lookup_singleton_ne. }
  split; [exact Hvalid|].
  apply (cleaning_keeps_valid_selection true twoSelected). exact Hvalid.
Defined.

(** Cleaning twice is cleaning once: the cleaned selection and the
    clamped anchor are fixed points of the cleaning. *)
Theorem cleaning_is_idempotent cb st :
  (cleanSelection cb (cleanSelection cb st).1).1 = (cleanSelection cb st).1.
Proof.
  rewrite !cleanSelection_run. cbn [fst rawFiles selection previousSelectionIndex
    set_selection]. unfold set_selection. cbn. f_equal.
  - destruct (previousSelectionIndex st) as [p|]; simpl; [|done].
    destruct (clampIndex p (rawFiles st)) as [c|] eqn:Hc; simpl; [|done].
    apply clampIndex_in_bounds. by apply clampIndex_range in Hc.
  - apply selection_ext.
    + apply keepSelected_fold_values. intros k b. by rewrite lookup_empty.
    + apply cleaned_values.
    + intros k. rewrite keepSelected_fold_selected. unfold selected at 1.
      rewrite lookup_empty. split.
      * by intros [?|[? _]].
      * intros Hk. right. split; [done|].
        apply keepSelected_fold_selected in Hk as [Hk|[_ Hk]]; [|done].
        unfold selected in Hk. by rewrite lookup_empty in Hk.
Qed.

(** ** Sorting across update cycles *)

Lemma componentDidUpdate_idle sortFiles prevState state :
  rawFiles state = rawFiles prevState →
  options state = options prevState →
  sortProperty state = sortProperty prevState →
  sortOrder state = sortOrder prevState →
  componentDidUpdate sortFiles prevState state = (state, []).
Proof.
  intros Hr Ho Hp Hq. unfold componentDidUpdate, needToResort, shallowEqualObjects.
  rewrite Hr, Ho, Hp, Hq. simpl. rewrite elementsStrictEq_refl.
  by rewrite !bool_decide_eq_true_2.
Qed.

Lemma handleKeyPress_state instanceId props event activeElem st :
  (handleKeyPress instanceId props event activeElem st).1 = st
  ∨ ∃ file displayIndex,
      kbEventIsBackspace event = false ∧ kbEventIsSpace event = true
      ∧ array_get (sortedFiles st) displayIndex = Some file
      ∧ 0 ≤ displayIndex < Z.of_nat (length (sortedFiles st))
      ∧ (handleKeyPress instanceId props event activeElem st).1
        = (handleSelectionToggle props file displayIndex Multiple st).1.
Proof.
  unfold handleKeyPress.
  destruct (negb _ && negb _ && negb _); [by left|].
  rewrite run_call. cbn [fst].
  destruct (kbEventIsBackspace event).
  { left. destruct (getNonNil _ _) as [parent|]; [|done].
    destruct (bool_decide _); [done|]. by destruct (onFileOpen props). }
  destruct (negb _ || negb _); [by left|].
  destruct (activeElem ≫= data_chonky_file_id) as [fileId|]; [|by left].
  destruct (fileIndexMap st !! fileId) as [i|]; [|by left].
  destruct (i <? 0) eqn:Hlo; [by left|].
  destruct (i >=? Z.of_nat (length (sortedFiles st))) eqn:Hhi; [by left|].
  cbn [orb].
  destruct (array_get _ _) as [file|] eqn:Hget; [|by left].
  destruct (kbEventIsSpace event); [|destruct (kbEventIsEnter event)].
  - unfold handleFileSingleClick. cbn [ctrlKey shiftKey].
    destruct (onFileSingleClick props) as [h|].
    + rewrite run_call. cbn [fst]. destruct (bool_decide _); [by left|].
      right. exists file, i. repeat split; try done.
      * by apply Z.ltb_ge.
      * rewrite Z.geb_leb in Hhi. by apply Z.leb_gt.
    + right. exists file, i. repeat split; try done.
      * by apply Z.ltb_ge.
      * rewrite Z.geb_leb in Hhi. by apply Z.leb_gt.
  - left. unfold handleFileDoubleClick.
    destruct (onFileDoubleClick props) as [h|].
    + rewrite run_call. cbn [fst]. destruct (bool_decide _); [done|].
      by destruct (_ && _).
    + by destruct (_ && _).
  - by left.
Qed.

(** Selecting never re-sorts: a key press, with whatever it toggles,
    leaves the raw files, the options, the sort property and order and the
    sorted view as they are, and the cycle it starts ends without a call
    to the sort engine. *)
Theorem key_press_never_resorts sortFiles instanceId props event activeElem st :
  handlerUpdate sortFiles (handleKeyPress instanceId props event activeElem) st
  = handleKeyPress instanceId props event activeElem st
  ∧ set_selection (selection st) (previousSelectionIndex st)
      (handleKeyPress instanceId props event activeElem st).1 = st.
Proof.
  assert (Hframe : set_selection (selection st) (previousSelectionIndex st)
      (handleKeyPress instanceId props event activeElem st).1 = st).
  { destruct (handleKeyPress_state instanceId props event activeElem st)
      as [->|(file & i & _ & _ & _ & _ & ->)]; [by destruct st|].
    destruct (decide (disableSelection props = Some true)) as [Hdis|Hen].
    - rewrite handleSelectionToggle_disabled by done. by destruct st.
    - rewrite handleSelectionToggle_enabled by done. by destruct st. }
  split; [|done]. unfold handlerUpdate, andThen.
  destruct (handleKeyPress instanceId props event activeElem st) as [st1 t1].
  cbn [fst] in Hframe.
  rewrite componentDidUpdate_idle; [by rewrite app_nil_r | by rewrite <- Hframe ..].
Qed.

(** A click on a column header always ends with the sorted view of the
    new sort column and order: every such click changes the sort property
    or flips the sort order, so the cycle re-sorts. *)
Theorem header_click_always_resorts sortFiles name st :
  sortedViewCurrent sortFiles (handlerUpdate sortFiles (activateSortProperty name) st).1
  ∧ sortProperty (handlerUpdate sortFiles (activateSortProperty name) st).1 = name.
Proof.
  unfold handlerUpdate, andThen, activateSortProperty, setState.
  match goal with |- context [componentDidUpdate sortFiles st ?s] =>
    assert (Hchange : sortProperty s ≠ sortProperty st ∨ sortOrder s ≠ sortOrder st);
    [|assert (Hname : sortProperty s = name); [|generalize dependent s]]
  end.
  - destruct (decide (sortProperty st = name)) as [Heq|Hne].
    + right. rewrite (bool_decide_eq_true_2 _ Heq). cbn.
      destruct (sortOrder st); cbn; done.
    + left. rewrite (bool_decide_eq_false_2 _ Hne). cbn. congruence.
  - by destruct (bool_decide _).
  - intros s Hchange Hname.
    rewrite (componentDidUpdate_resorts sortFiles st s) by tauto.
    cbn [fst]. unfold sortedViewCurrent. cbn. split; [|done].
    by destruct (sortFiles _ _ _ _).
Qed.

(** [setOption] followed by the update cycle it starts: the option has
    the requested value, the other options keep theirs; when the value was
    already there the state is untouched and nothing is sorted, otherwise
    the cycle ends with the view sorted under the new options. *)
Theorem setOption_cycle sortFiles name value st :
  options (handlerUpdate sortFiles (setOption name value) st).1 !! name = Some value
  ∧ (∀ other, other ≠ name →
       options (handlerUpdate sortFiles (setOption name value) st).1 !! other
       = options st !! other)
  ∧ (options st !! name = Some value →
     handlerUpdate sortFiles (setOption name value) st = (st, []))
  ∧ (options st !! name ≠ Some value →
     sortedViewCurrent sortFiles (handlerUpdate sortFiles (setOption name value) st).1).
Proof.
  unfold handlerUpdate, andThen, setOption, setState.
  destruct (decide (options st !! name = Some value)) as [Heq|Hne].
  - rewrite (bool_decide_eq_true_2 _ Heq). cbn [negb].
    rewrite componentDidUpdate_idle by done. cbn [fst].
    repeat split; try done.
  - rewrite (bool_decide_eq_false_2 _ Hne). cbn [negb].
    rewrite componentDidUpdate_resorts.
    + cbn. repeat split.
      * by rewrite lookup_insert_eq.
      * intros other Hother. by rewrite lookup_insert_ne.
      * done.
      * intros _. unfold sortedViewCurrent. cbn. by destruct (sortFiles _ _ _ _).
    + right. left. cbn. intros Heq. apply Hne. rewrite <- Heq.
      by rewrite lookup_insert_eq.
Qed.

Lemma setOption_cycle_witness :
  options (constructor keepOrder demoProps) !! FoldersFirst ≠ Some false
  ∧ sortedViewCurrent keepOrder
      (handlerUpdate keepOrder (setOption FoldersFirst false)
         (constructor keepOrder demoProps)).1.
Proof.
  split; [by vm_compute|].
  apply (setOption_cycle keepOrder FoldersFirst false (constructor keepOrder demoProps)).
  by vm_compute.
Defined.

(** The initial state: nothing selected, no anchor, the host's files and
    folder chain, every option defined (the host's value where it gave
    one, [true] otherwise), sort by name ascending unless the host says
    otherwise, and the sorted view computed from these. *)
Theorem constructor_initial_state sortFiles props :
  selection (constructor sortFiles props) = ∅
  ∧ previousSelectionIndex (constructor sortFiles props) = None
  ∧ rawFiles (constructor sortFiles props) = files props
  ∧ folderChain (constructor sortFiles props) = propFolderChain props
  ∧ (∀ o, options (constructor sortFiles props) !! o
          = Some (default true (propOptions props ≫= λ p, p.2 !! o)))
  ∧ sortProperty (constructor sortFiles props) = default Name (propSortProperty props)
  ∧ sortOrder (constructor sortFiles props) = default Asc (propSortOrder props)
  ∧ view (constructor sortFiles props) = default Details (propView props)
  ∧ sortedViewCurrent sortFiles (constructor sortFiles props).
Proof.
  unfold constructor, sortedViewCurrent.
  destruct (sortFiles _ _ _ _) as [sorted index] eqn:Hsort. cbn.
  split_and!; try done.
  - intros o. destruct (propOptions props) as [[r po]|]; cbn.
    + rewrite lookup_union. destruct (po !! o) as [b|]; cbn.
      * by destruct (defaultOptions !! o).
      * by destruct o.
    + by destruct o.
Qed.

(** The sorted view stays current across props updates: if the state
    holds the references of the old props' file list and its sorted view
    is the sort of its inputs, the same is true after the update. *)
Theorem sorted_view_stays_current sortFiles old nextProps st :
  shallowEqualArrays (Some (rawFiles st)) (Some (files old)) = true →
  sortedViewCurrent sortFiles st →
  sortedViewCurrent sortFiles (propsUpdate sortFiles old nextProps st).1.
Proof.
  intros Hsync Hcur. unfold propsUpdate, andThen.
  pose proof (receiveProps_fields old nextProps st)
    as (Hraw & _ & Hopt & Hprop & Hord & Hsorted & Hindex).
  destruct (UNSAFE_componentWillReceiveProps old nextProps st) as [st1 t1].
  cbn [fst] in *. unfold componentDidUpdate.
  destruct (needToResort st st1) eqn:Hneed.
  - unfold sortedViewCurrent. destruct (sortFiles _ _ _ _) as [s m] eqn:Hs. cbn.
    by rewrite <- Hs.
  - unfold skip. cbn [fst]. unfold sortedViewCurrent.
    unfold needToResort, shallowEqualObjects in Hneed.
    apply orb_false_iff in Hneed as [Hneed Hq].
    apply orb_false_iff in Hneed as [Hneed Hp].
    apply orb_false_iff in Hneed as [Hr Ho].
    apply negb_false_iff in Hr, Ho, Hp, Hq.
    apply bool_decide_eq_true in Ho, Hp, Hq.
    rewrite Hsorted, Hindex, Ho, Hp, Hq.
    destruct (shallowEqualArrays (Some (files nextProps)) (Some (files old))) eqn:Heq.
    + by rewrite Hraw.
    + exfalso. rewrite Hraw in Hr. simpl in *.
      assert (elementsStrictEq (files nextProps) (files old) = true); [|congruence].
      by eapply elementsStrictEq_trans.
Qed.

Lemma sorted_view_stays_current_witness :
  shallowEqualArrays (Some (rawFiles (constructor keepOrder demoProps)))
    (Some (files demoProps)) = true
  ∧ sortedViewCurrent keepOrder (constructor keepOrder demoProps)
  ∧ sortedViewCurrent keepOrder
      (propsUpdate keepOrder demoProps afterRemoval (constructor keepOrder demoProps)).1.
Proof.
  split; [by vm_compute|]. split; [by vm_compute|].
  apply (sorted_view_stays_current keepOrder demoProps afterRemoval
           (constructor keepOrder demoProps)); by vm_compute.
Defined.

(** ** More on the interaction dispatcher *)

(** A pointer click resolves its modifiers with shift first: shift gives
    [Range] even with ctrl held, ctrl alone gives [Multiple], no modifier
    gives [Single].  (The host's click callback, if any, not asking to
    prevent the default.) *)
Theorem click_modifiers props file displayIndex event keyboard st :
  (∀ handler, onFileSingleClick props = Some handler →
     handler file displayIndex event keyboard ≠ Some true) →
  (handleFileSingleClick props file displayIndex event keyboard st).1
  = (handleSelectionToggle props file displayIndex
       (if shiftKey event then Range else if ctrlKey event then Multiple else Single)
       st).1.
Proof.
  intros Hnot. unfold handleFileSingleClick.
  destruct (onFileSingleClick props) as [h|].
  - rewrite run_call. cbn [fst].
    rewrite (bool_decide_eq_false_2 _ (Hnot h eq_refl)).
    by destruct (shiftKey event), (ctrlKey event).
  - by destruct (shiftKey event), (ctrlKey event).
Qed.

Lemma click_modifiers_witness :
  (∀ handler, onFileSingleClick demoProps = Some handler →
     handler notes 2 ctrlShiftClick false ≠ Some true)
  ∧ (handleFileSingleClick demoProps notes 2 ctrlShiftClick false emptyAnchored).1
    = (handleSelectionToggle demoProps notes 2 Range emptyAnchored).1.
Proof.
  split; [by intros h [=]|].
  apply (click_modifiers demoProps notes 2 ctrlShiftClick false emptyAnchored).
  by intros h [=].
Defined.

(** A host callback that returns [true] prevents the default: the single
    click selects nothing and notifies nobody, the double click opens
    nothing; the callback itself is the only thing called. *)
Theorem host_prevents_default props file displayIndex event keyboard st :
  (∀ handler, onFileSingleClick props = Some handler →
     handler file displayIndex event keyboard = Some true →
     handleFileSingleClick props file displayIndex event keyboard st
     = (st, [CallFileSingleClick file displayIndex event keyboard]))
  ∧ (∀ handler, onFileDoubleClick props = Some handler →
     handler file displayIndex event keyboard = Some true →
     handleFileDoubleClick props file displayIndex event keyboard st
     = (st, [CallFileDoubleClick file displayIndex event keyboard])).
Proof.
  split; intros h Hh Htrue.
  - unfold handleFileSingleClick. rewrite Hh, run_call.
    by rewrite (bool_decide_eq_true_2 _ Htrue).
  - unfold handleFileDoubleClick. rewrite Hh, run_call.
    by rewrite (bool_decide_eq_true_2 _ Htrue).
Qed.

Lemma host_prevents_default_witness :
  onFileSingleClick hostHandlesClicks = Some (fun _ _ _ _ => Some true)
  ∧ handleFileSingleClick hostHandlesClicks notes 2 plainClick false emptyAnchored
    = (emptyAnchored, [CallFileSingleClick notes 2 plainClick false]).
Proof.
  split; [done|].
  apply (proj1 (host_prevents_default hostHandlesClicks notes 2 plainClick false
                  emptyAnchored) (fun _ _ _ _ => Some true)); done.
Defined.

(** A double click never changes the state.  It calls [onFileOpen] for no
    file other than the clicked one, never for a file marked
    [openable: false], and it does call it for an openable file when the
    host listens and its double-click callback does not prevent it. *)
Theorem double_click_opens_openable props file displayIndex event keyboard st :
  (handleFileDoubleClick props file displayIndex event keyboard st).1 = st
  ∧ (∀ f, CallFileOpen f
          ∈ (handleFileDoubleClick props file displayIndex event keyboard st).2 →
          f = file ∧ openable file ≠ Some false)
  ∧ (openable file ≠ Some false → onFileOpen props = true →
     (∀ handler, onFileDoubleClick props = Some handler →
        handler file displayIndex event keyboard ≠ Some true) →
     CallFileOpen file
     ∈ (handleFileDoubleClick props file displayIndex event keyboard st).2).
Proof.
  unfold handleFileDoubleClick. split_and!.
  - destruct (onFileDoubleClick props) as [h|].
    + rewrite run_call. cbn [fst]. destruct (bool_decide _); [done|].
      by destruct (_ && _).
    + by destruct (_ && _).
  - intros f. destruct (onFileDoubleClick props) as [h|].
    + rewrite run_call. cbn [snd]. intros [?|Hin]%elem_of_cons; [done|]. revert Hin.
      destruct (bool_decide (h _ _ _ _ = _)); [by intros ?%elem_of_nil|].
      destruct (onFileOpen props); cbn; [|by intros ?%elem_of_nil].
      case_bool_decide; cbn; [by intros ?%elem_of_nil|].
      by intros [= ->]%list_elem_of_singleton.
    + destruct (onFileOpen props); cbn; [|by intros ?%elem_of_nil].
      case_bool_decide; cbn; [by intros ?%elem_of_nil|].
      by intros [= ->]%list_elem_of_singleton.
  - intros Hopen -> Hnot. rewrite (bool_decide_eq_false_2 _ Hopen). cbn.
    destruct (onFileDoubleClick props) as [h|].
    + rewrite run_call. cbn [snd].
      rewrite (bool_decide_eq_false_2 _ (Hnot h eq_refl)). set_solver.
    + set_solver.
Qed.

Lemma double_click_opens_openable_witness :
  openable Docs ≠ Some false
  ∧ onFileOpen demoProps = true
  ∧ CallFileOpen Docs ∈ (handleFileDoubleClick demoProps Docs 0 plainClick false
                           emptyAnchored).2.
Proof.
  split; [done|]. split; [done|].
  apply (double_click_opens_openable demoProps Docs 0 plainClick false emptyAnchored);
    [done | done | by intros h [=]].
Defined.

(** Of the three keys only space can change the state: a backspace or an
    enter key press leaves the whole state as it is. *)
Theorem only_space_changes_state instanceId props event activeElem st :
  kbEventIsBackspace event = true ∨ kbEventIsSpace event = false →
  (handleKeyPress instanceId props event activeElem st).1 = st.
Proof.
  intros Hkey.
  destruct (handleKeyPress_state instanceId props event activeElem st)
    as [->|(file & i & Hb & Hs & _)]; [done|].
  destruct Hkey; congruence.
Qed.

Lemma only_space_changes_state_witness :
  (kbEventIsBackspace enterKey = true ∨ kbEventIsSpace enterKey = false)
  ∧ (handleKeyPress "chonky-1" demoProps enterKey (Some (rowOf notes)) twoSelected).1
    = twoSelected.
Proof.
  split; [by right|].
  apply (only_space_changes_state "chonky-1" demoProps enterKey (Some (rowOf notes))
           twoSelected). by right.
Defined.

(** Enter on a focused row opens the file: with no double-click callback
    and a listening host, the effects are [event.preventDefault()] and
    [onFileOpen(file)], for a file not marked [openable: false]. *)
Theorem enter_opens_focused_file instanceId props event elem st fileId displayIndex file :
  kbEventIsBackspace event = false →
  kbEventIsSpace event = false →
  kbEventIsEnter event = true →
  data_chonky_instance_id elem = Some instanceId →
  data_chonky_file_id elem = Some fileId →
  fileIndexMap st !! fileId = Some displayIndex →
  array_get (sortedFiles st) displayIndex = Some file →
  onFileDoubleClick props = None →
  onFileOpen props = true →
  handleKeyPress instanceId props event (Some elem) st
  = (st, if bool_decide (openable file = Some false) then [PreventDefault]
         else [PreventDefault; CallFileOpen file]).
Proof.
  intros Hback Hspace Henter Hinst Hfile Hidx Hget Hdbl Hopen.
  rewrite (handleKeyPress_activation instanceId props event elem st fileId
             displayIndex file) by auto.
  rewrite Hspace, run_call. unfold handleFileDoubleClick. rewrite Hdbl, Hopen.
  by case_bool_decide.
Qed.

Lemma enter_opens_focused_file_witness :
  fileIndexMap twoSelected !! "c" = Some 2
  ∧ array_get (sortedFiles twoSelected) 2 = Some notes
  ∧ handleKeyPress "chonky-1" demoProps enterKey (Some (rowOf notes)) twoSelected
    = (twoSelected, if bool_decide (openable notes = Some false) then [PreventDefault]
                    else [PreventDefault; CallFileOpen notes]).
Proof.
  split; [by vm_compute|]. split; [done|].
  apply (enter_opens_focused_file "chonky-1" demoProps enterKey (rowOf notes)
           twoSelected "c" 2 notes); first [done | by vm_compute].
Defined.

(** A space or enter key press that does not resolve to a file row of
    this instance is ignored: no focused element or one of another
    instance, no file id on it, an id the index map does not know, an
    index outside the sorted view, or an empty slot there.  Nothing
    happens beyond [event.preventDefault()]. *)
Theorem key_press_ignored instanceId props event activeElem st :
  kbEventIsBackspace event = false →
  activeElem ≫= data_chonky_instance_id ≠ Some instanceId
  ∨ activeElem ≫= data_chonky_file_id = None
  ∨ (∃ fileId, activeElem ≫= data_chonky_file_id = Some fileId
       ∧ match fileIndexMap st !! fileId with
         | None => True
         | Some i => i < 0 ∨ Z.of_nat (length (sortedFiles st)) ≤ i
                     ∨ array_get (sortedFiles st) i = None
         end) →
  handleKeyPress instanceId props event activeElem st
  = (st, if kbEventIsSpace event || kbEventIsEnter event then [PreventDefault] else []).
Proof.
  intros Hback Hmiss. unfold handleKeyPress. rewrite Hback. cbn [negb andb].
  destruct (kbEventIsSpace event) eqn:Hs, (kbEventIsEnter event) eqn:He;
    cbn [negb andb orb]; try done; rewrite run_call; f_equal.
  all: destruct (activeElem ≫= data_chonky_instance_id) as [inst|] eqn:Hinst;
    cbn [isString negb orb]; [|done].
  all: case_bool_decide as Hi; cbn [negb]; [|done].
  all: destruct Hmiss as [Hm|[Hm|(fileId & Hf & Hm)]]; [congruence | by rewrite Hm |].
  all: rewrite Hf; destruct (fileIndexMap st !! fileId) as [i|]; [|done].
  all: destruct Hm as [Hm|[Hm|Hm]].
  all: try (apply Z.ltb_lt in Hm; by rewrite Hm).
  all: try (destruct (i <? 0); [done|]; cbn [orb];
            rewrite Z.geb_leb; apply Z.leb_le in Hm; by rewrite Hm).
  all: destruct (_ || _); [done|]; by rewrite Hm.
Qed.

Lemma key_press_ignored_witness :
  kbEventIsBackspace spaceKey = false
  ∧ Some (mkElement (Some "c") (Some "chonky-2")) ≫= data_chonky_instance_id
    ≠ Some "chonky-1"
  ∧ handleKeyPress "chonky-1" demoProps spaceKey
      (Some (mkElement (Some "c") (Some "chonky-2"))) twoSelected
    = (twoSelected, [PreventDefault]).
Proof.
  split; [done|]. split; [done|].
  apply (key_press_ignored "chonky-1" demoProps spaceKey
           (Some (mkElement (Some "c") (Some "chonky-2"))) twoSelected); [done|].
  by left.
Defined.

Lemma handleSelectionToggle_trace props file displayIndex type st e :
  e ∈ (handleSelectionToggle props file displayIndex type st).2 →
  disableSelection props ≠ Some true ∧ ∃ s, e = CallSelectionChange s.
Proof.
  destruct (decide (disableSelection props = Some true)) as [Hdis|Hen].
  - rewrite handleSelectionToggle_disabled by done. by intros ?%elem_of_nil.
  - rewrite handleSelectionToggle_enabled by done. cbn [snd].
    destruct (onSelectionChange props); [|by intros ?%elem_of_nil].
    intros ->%list_elem_of_singleton. eauto.
Qed.

Lemma handleFileSingleClick_trace props file displayIndex event keyboard st s :
  CallSelectionChange s
  ∈ (handleFileSingleClick props file displayIndex event keyboard st).2 →
  disableSelection props ≠ Some true.
Proof.
  unfold handleFileSingleClick. destruct (onFileSingleClick props) as [h|].
  - rewrite run_call. cbn [snd]. intros [?|Hin]%elem_of_cons; [done|]. revert Hin.
    destruct (bool_decide _); [by intros ?%elem_of_nil|].
    by intros [? _]%handleSelectionToggle_trace.
  - by intros [? _]%handleSelectionToggle_trace.
Qed.

Lemma handleKeyPress_trace instanceId props event activeElem st s :
  CallSelectionChange s ∈ (handleKeyPress instanceId props event activeElem st).2 →
  disableSelection props ≠ Some true.
Proof.
  unfold handleKeyPress.
  destruct (negb _ && negb _ && negb _); [by intros ?%elem_of_nil|].
  rewrite run_call. cbn [snd]. intros [?|He]%elem_of_cons; [done|]. revert He.
  destruct (kbEventIsBackspace event).
  { destruct (getNonNil _ _) as [parent|]; [|by intros ?%elem_of_nil].
    destruct (bool_decide _); [by intros ?%elem_of_nil|].
    destruct (onFileOpen props); simpl; [|by intros ?%elem_of_nil].
    by intros ?%list_elem_of_singleton. }
  destruct (negb _ || negb _); [by intros ?%elem_of_nil|].
  destruct (activeElem ≫= data_chonky_file_id) as [fileId|]; [|by intros ?%elem_of_nil].
  destruct (fileIndexMap st !! fileId) as [i|]; [|by intros ?%elem_of_nil].
  destruct (_ || _); [by intros ?%elem_of_nil|].
  destruct (array_get _ _) as [file|]; [|by intros ?%elem_of_nil].
  destruct (kbEventIsSpace event); [|destruct (kbEventIsEnter event)].
  - apply handleFileSingleClick_trace.
  - unfold handleFileDoubleClick.
    destruct (onFileDoubleClick props) as [h|].
    + rewrite run_call. cbn [snd]. intros [?|He]%elem_of_cons; [done|]. revert He.
      destruct (bool_decide _); [by intros ?%elem_of_nil|].
      destruct (_ && _); simpl; [|by intros ?%elem_of_nil].
      by intros ?%list_elem_of_singleton.
    + destruct (_ && _); simpl; [|by intros ?%elem_of_nil].
      by intros ?%list_elem_of_singleton.
  - by intros ?%elem_of_nil.
Qed.

(** With [disableSelection] set, no click and no key changes the state or
    reports a selection to the host. *)
Theorem selection_disabled_inert instanceId props file displayIndex clickEvent keyboard
    event activeElem st :
  disableSelection props = Some true →
  (handleFileSingleClick props file displayIndex clickEvent keyboard st).1 = st
  ∧ (∀ s, CallSelectionChange s
          ∉ (handleFileSingleClick props file displayIndex clickEvent keyboard st).2)
  ∧ (handleKeyPress instanceId props event activeElem st).1 = st
  ∧ (∀ s, CallSelectionChange s
          ∉ (handleKeyPress instanceId props event activeElem st).2).
Proof.
  intros Hdis. split_and!.
  - unfold handleFileSingleClick. destruct (onFileSingleClick props) as [h|].
    + rewrite run_call. cbn [fst]. destruct (bool_decide _); [done|].
      by rewrite handleSelectionToggle_disabled.
    + by rewrite handleSelectionToggle_disabled.
  - intros s Hin. by apply handleFileSingleClick_trace in Hin.
  - destruct (handleKeyPress_state instanceId props event activeElem st)
      as [->|(f & i & _ & _ & _ & _ & ->)]; [done|].
    by rewrite handleSelectionToggle_disabled.
  - intros s Hin. by apply handleKeyPress_trace in Hin.
Qed.

Lemma selection_disabled_inert_witness :
  disableSelection selectionOff = Some true
  ∧ (handleKeyPress "chonky-1" selectionOff spaceKey (Some (rowOf notes)) emptyAnchored).1
    = emptyAnchored.
Proof.
  split; [done|].
  apply (selection_disabled_inert "chonky-1" selectionOff notes 2 plainClick false
           spaceKey (Some (rowOf notes)) emptyAnchored). done.
Defined.

(** Props that carry nothing new start an idle cycle: with the same file
    and folder references, the same [options] object, the same view, sort
    property, sort order and [disableSelection], the state is untouched,
    the host is not called and nothing is sorted. *)
Theorem idle_props_update sortFiles old nextProps st :
  shallowEqualArrays (Some (files nextProps)) (Some (files old)) = true →
  shallowEqualArrays (propFolderChain nextProps) (propFolderChain old) = true →
  propView nextProps = propView old →
  sameOptionsObject (propOptions nextProps) (propOptions old) = true →
  propSortProperty nextProps = propSortProperty old →
  propSortOrder nextProps = propSortOrder old →
  disableSelection nextProps = disableSelection old →
  propsUpdate sortFiles old nextProps st = (st, []).
Proof.
  intros Hfiles Hchain Hview Hopts Hprop Hord Hdis.
  assert (UNSAFE_componentWillReceiveProps old nextProps st = (st, [])) as Hrun.
  { unfold UNSAFE_componentWillReceiveProps.
    assert (selectionStatusOf old nextProps = Ok) as ->.
    { unfold selectionStatusOf. rewrite Hfiles, Hchain, Hdis. cbn [negb andb].
      rewrite (bool_decide_eq_true_2 (disableSelection old = disableSelection old))
        by done. cbn [negb]. by rewrite andb_false_r. }
    rewrite Hfiles, Hchain, Hopts, Hview, Hprop, Hord. cbn [negb when].
    rewrite !run_skip.
    destruct (propView old) as [v|];
      [rewrite bool_decide_eq_true_2 by done; cbn [negb when]|]; rewrite run_skip;
    (destruct (propOptions nextProps) as [[r o]|]; cbn [negb when]; rewrite run_skip);
    (destruct (propSortProperty old) as [p|];
      [rewrite bool_decide_eq_true_2 by done; cbn [negb when]|]; rewrite run_skip);
    (destruct (propSortOrder old) as [q|];
      [rewrite bool_decide_eq_true_2 by done; cbn [negb when]|]; rewrite run_skip);
    done. }
  unfold propsUpdate, andThen. rewrite Hrun.
  by rewrite componentDidUpdate_idle.
Qed.

Lemma idle_props_update_witness :
  shallowEqualArrays (Some (files demoProps)) (Some (files demoProps)) = true
  ∧ sameOptionsObject (propOptions demoProps) (propOptions demoProps) = true
  ∧ propsUpdate keepOrder demoProps demoProps twoSelected = (twoSelected, []).
Proof.
  split; [by vm_compute|]. split; [done|].
  apply (idle_props_update keepOrder demoProps demoProps twoSelected);
    first [done | by vm_compute].
Defined.

(** Changing the view changes the view only, and nothing is sorted. *)
Theorem setView_cycle sortFiles v st :
  view (handlerUpdate sortFiles (setView v) st).1 = v
  ∧ set_view (view st) (handlerUpdate sortFiles (setView v) st).1 = st
  ∧ (handlerUpdate sortFiles (setView v) st).2 = [].
Proof.
  unfold handlerUpdate, andThen, setView, setState.
  rewrite componentDidUpdate_idle; [|by case_bool_decide ..].
  cbn [fst snd]. case_bool_decide; cbn [negb]; by destruct st.
Qed.
